(** * qualyspy.vmdr: the Detection record and the report functions

    A shallow embedding of [src/qualyspy/vmdr/data_classes/detection.py]
    and [src/qualyspy/vmdr/reports.py].

    Python values are an inductive type [value]; a raised exception is
    the [Err] branch of [result].  The collaborators that live outside
    these two files (the transport [call_api], [xml_parser],
    [datetime.fromisoformat], bs4's text extraction and the record
    classes of other modules) are parameters of the sections that use
    them. *)

From Stdlib Require Import ZArith String Ascii List Bool.
Import ListNotations.
Set Warnings "-register-all".
Local Open Scope string_scope.
Local Open Scope list_scope.
Local Open Scope Z_scope.

(** ** Values *)

(** A [datetime] object: the wall-clock reading in microseconds and, for
    an aware value, the UTC offset in microseconds ([tzinfo]). *)
Record datetime := mk_datetime { wall : Z; utcoffset : option Z }.

(** The Python values that reach this code.  A [str] is a sequence of
    characters with code points below 256; a [dict] is kept in insertion
    order, the first binding of a key being the live one.  [VQDS] and
    [VQDSFactor] are the instances of the classes [QDS] and [QDSFactor],
    built by [qds] and [QDSFactor] below. *)
Inductive value : Type :=
| VNone
| VBool (b : bool)
| VInt (n : Z)
| VStr (s : string)
| VList (items : list value)
| VDict (entries : list (string * value))
| VDatetime (t : datetime)
| VQDS (SEVERITY : value) (SCORE : Z)
| VQDSFactor (NAME : value) (VALUE : value).

Definition dict := list (string * value).

(** Modelled from the spec: [qds.py] is not part of the sources.  The
    spec has the score as "a severity category paired with a numeric
    score", so the class is taken as a plain dataclass of its two fields:
    its instances are truthy, take no subscript, do not order, and are
    equal field by field. *)
Definition qds (SEVERITY : value) (SCORE : Z) : value := VQDS SEVERITY SCORE.

(** Modelled from the spec: [qds_factor.py] is not part of the sources.
    The spec has the factor as "a name/value pair", taken as a plain
    dataclass like [qds]. *)
Definition QDSFactor (NAME VALUE : value) : value := VQDSFactor NAME VALUE.

(** ** Exceptions *)

Inductive type_error :=
| MissingArguments (names : list string) (* __init__() missing n required positional arguments *)
| UnexpectedKeyword (name : string)      (* got an unexpected keyword argument *)
| MultipleValues (name : string)         (* got multiple values for keyword argument *)
| NotSubscriptable                       (* x[key] on None, int, bool or an object *)
| BadIndex                               (* list or str indexed by a str *)
| NotIterable                            (* iteration or membership on None, int, ... *)
| BadMarkup                              (* bs4 given something that is no str *)
| NotAString                             (* fromisoformat: argument must be str *)
| BadIntArgument.                        (* int() of None, a list, a dict or an object *)

Inductive value_error :=
| RequiredKeys (keys : list string)      (* "Dictionary must contain the following keys: {...}" *)
| InvalidIntLiteral (s : string)         (* invalid literal for int() with base 10 *)
| InvalidIsoformat (s : string).         (* Invalid isoformat string *)

Inductive exn :=
| KeyError (key : string)
| TypeError (why : type_error)
| ValueError (why : value_error)
| AttributeError (attr : string)
| NotImplementedError (msg : string)
| QualysAPIError (message : value)
| CollaboratorError (msg : string).

Inductive result (A : Type) :=
| Ok (a : A)
| Err (e : exn).
Arguments Ok {A} a.
Arguments Err {A} e.

Definition bind {A B} (r : result A) (k : A -> result B) : result B :=
  match r with
  | Ok a => k a
  | Err e => Err e
  end.

Notation "x <- c ;; k" := (bind c (fun x => k))
  (at level 61, c at next level, right associativity).

Fixpoint mapM {A B} (f : A -> result B) (xs : list A) : result (list B) :=
  match xs with
  | [] => Ok []
  | x :: xs' => y <- f x ;; ys <- mapM f xs' ;; Ok (y :: ys)
  end.

(** ** Dictionaries *)

Fixpoint dict_get (k : string) (d : dict) : option value :=
  match d with
  | [] => None
  | (k', v) :: d' => if String.eqb k k' then Some v else dict_get k d'
  end.

(** [d[k] = v]: an existing key keeps its place, a new one goes last. *)
Fixpoint dict_set (k : string) (v : value) (d : dict) : dict :=
  match d with
  | [] => [(k, v)]
  | (k', v') :: d' =>
      if String.eqb k k' then (k, v) :: d' else (k', v') :: dict_set k v d'
  end.

Definition dict_keys (d : dict) : list string := map fst d.

Definition mem (k : string) (ks : list string) : bool :=
  existsb (String.eqb k) ks.

Definition dict_has (k : string) (d : dict) : bool := mem k (dict_keys d).

(** ** Built-in operations *)

(** [bool(v)]. *)
Definition truthy (v : value) : bool :=
  match v with
  | VNone => false
  | VBool b => b
  | VInt n => negb (n =? 0)
  | VStr s => negb (String.eqb s EmptyString)
  | VList l => match l with [] => false | _ => true end
  | VDict d => match d with [] => false | _ => true end
  | VDatetime _ | VQDS _ _ | VQDSFactor _ _ => true
  end.

Definition is_str (v : value) : bool := match v with VStr _ => true | _ => false end.
Definition is_bool (v : value) : bool := match v with VBool _ => true | _ => false end.
(** [isinstance(v, int)]: [bool] is a subclass of [int]. *)
Definition is_int (v : value) : bool :=
  match v with VInt _ | VBool _ => true | _ => false end.
Definition is_list (v : value) : bool := match v with VList _ => true | _ => false end.
Definition is_dict (v : value) : bool := match v with VDict _ => true | _ => false end.
Definition is_not_None (v : value) : bool := match v with VNone => false | _ => true end.

(** [v[k]] for a string key [k]. *)
Definition subscript (v : value) (k : string) : result value :=
  match v with
  | VDict d => match dict_get k d with
               | Some x => Ok x
               | None => Err (KeyError k)
               end
  | VList _ | VStr _ => Err (TypeError BadIndex)
  | _ => Err (TypeError NotSubscriptable)
  end.

(** *** [int(str)] *)

(** The white space that [int] skips around the digits. *)
Definition is_space (c : ascii) : bool :=
  let n := nat_of_ascii c in
  ((9 <=? n) && (n <=? 13) || (n =? 32) || (n =? 133) || (n =? 160))%nat.

Definition digit_of (c : ascii) : option Z :=
  let n := Z.of_nat (nat_of_ascii c) in
  if (48 <=? n) && (n <=? 57) then Some (n - 48) else None.

Fixpoint lstrip (s : string) : string :=
  match s with
  | String c s' => if is_space c then lstrip s' else s
  | EmptyString => EmptyString
  end.

(** Drops trailing whitespace. *)
Fixpoint rstrip (s : string) : string :=
  match s with
  | EmptyString => EmptyString
  | String c s' =>
      match rstrip s' with
      | EmptyString => if is_space c then EmptyString else String c EmptyString
      | r => String c r
      end
  end.

(** Digits, single underscores allowed between two digits.  [acc] is the
    number read so far, [after_digit] says whether the previous character
    was a digit. *)
Fixpoint digits (acc : Z) (after_digit : bool) (s : string) : option Z :=
  match s with
  | EmptyString => if after_digit then Some acc else None
  | String c s' =>
      match digit_of c with
      | Some d => digits (10 * acc + d) true s'
      | None =>
          if Ascii.eqb c "_"%char && after_digit
          then match s' with
               | String c' _ => match digit_of c' with
                                | Some _ => digits acc false s'
                                | None => None
                                end
               | EmptyString => None
               end
          else None
      end
  end.

Definition parse_int (s : string) : option Z :=
  match rstrip (lstrip s) with
  | String "-"%char r => option_map Z.opp (digits 0 false r)
  | String "+"%char r => digits 0 false r
  | r => digits 0 false r
  end.

(** [int(v)]. *)
Definition py_int (v : value) : result Z :=
  match v with
  | VInt n => Ok n
  | VBool b => Ok (Z.b2z b)
  | VStr s => match parse_int s with
              | Some n => Ok n
              | None => Err (ValueError (InvalidIntLiteral s))
              end
  | _ => Err (TypeError BadIntArgument)
  end.

(** ** Equality and ordering of values *)

(** Element-wise test of two sequences of the same length. *)
Definition all2 {A B} (f : A -> B -> bool) : list A -> list B -> bool :=
  fix go xs ys :=
    match xs, ys with
    | [], [] => true
    | x :: xs', y :: ys' => f x y && go xs' ys'
    | _, _ => false
    end.

(** Every live binding of [d] is bound in [e] to a value related by [f];
    [seen] holds the keys already met, whose later bindings are dead. *)
Definition bindings_match (f : value -> value -> bool) (e : dict)
  : list string -> dict -> bool :=
  fix go seen d :=
    match d with
    | [] => true
    | (k, v) :: d' =>
        (mem k seen
         || match dict_get k e with
            | Some w => f v w
            | None => false
            end)
        && go (k :: seen) d'
    end.

Definition datetime_eqb (s t : datetime) : bool :=
  match utcoffset s, utcoffset t with
  | None, None => wall s =? wall t
  | Some a, Some b => wall s - a =? wall t - b
  | _, _ => false
  end.

(** [a == b]. *)
Fixpoint py_eq (a b : value) {struct a} : bool :=
  match a, b with
  | VNone, VNone => true
  | VBool x, VBool y => Bool.eqb x y
  | VBool x, VInt n => Z.b2z x =? n
  | VInt m, VBool y => m =? Z.b2z y
  | VInt m, VInt n => m =? n
  | VStr s, VStr t => String.eqb s t
  | VList xs, VList ys => all2 py_eq xs ys
  | VDict d, VDict e =>
      forallb (fun k => dict_has k d) (dict_keys e)
      && bindings_match py_eq e [] d
  | VDatetime s, VDatetime t => datetime_eqb s t
  | VQDS s m, VQDS t n => py_eq s t && (m =? n)
  | VQDSFactor n v, VQDSFactor m w => py_eq n m && py_eq v w
  | _, _ => false
  end.

Inductive cmp_op := OpLt | OpLe | OpGt | OpGe.

Definition holds (op : cmp_op) (c : comparison) : bool :=
  match op, c with
  | OpLt, Lt | OpLe, Lt | OpLe, Eq | OpGt, Gt | OpGe, Gt | OpGe, Eq => true
  | _, _ => false
  end.

(** Sequences order by their first differing pair, else by length. *)
Definition seq_cmp {A} (eq : A -> A -> bool) (cmp : A -> A -> option bool)
    (op : cmp_op) : list A -> list A -> option bool :=
  fix go xs ys :=
    match xs, ys with
    | [], [] => Some (holds op Eq)
    | [], _ :: _ => Some (holds op Lt)
    | _ :: _, [] => Some (holds op Gt)
    | x :: xs', y :: ys' => if eq x y then go xs' ys' else cmp x y
    end.

(** [a < b], [a <= b], [a > b], [a >= b]; [None] is the [TypeError] of
    operands that do not order. *)
Fixpoint py_cmp (op : cmp_op) (a b : value) {struct a} : option bool :=
  match a, b with
  | VBool x, VBool y => Some (holds op (Z.b2z x ?= Z.b2z y))
  | VBool x, VInt n => Some (holds op (Z.b2z x ?= n))
  | VInt m, VBool y => Some (holds op (m ?= Z.b2z y))
  | VInt m, VInt n => Some (holds op (m ?= n))
  | VStr s, VStr t => Some (holds op (String.compare s t))
  | VList xs, VList ys => seq_cmp py_eq (py_cmp op) op xs ys
  | VDatetime s, VDatetime t =>
      match utcoffset s, utcoffset t with
      | None, None => Some (holds op (wall s ?= wall t))
      | Some a, Some b => Some (holds op (wall s - a ?= wall t - b))
      | _, _ => None
      end
  | _, _ => None
  end.

(** * detection.py *)

Module Detection.

(** The instance: one attribute per declared field, in declaration
    order.  Attributes are dynamically typed, so each holds a [value]. *)
Record t := mk {
  UNIQUE_VULN_ID : value;
  QID : value;
  TYPE : value;
  SEVERITY : value;
  STATUS : value;
  SSL : value;
  RESULTS : value;
  FIRST_FOUND_DATETIME : value;
  LAST_FOUND_DATETIME : value;
  QDS : value;
  QDS_FACTORS : value;
  TIMES_FOUND : value;
  LAST_TEST_DATETIME : value;
  LAST_UPDATE_DATETIME : value;
  IS_IGNORED : value;
  IS_DISABLED : value;
  LAST_PROCESSED_DATETIME : value;
  LAST_FIXED_DATETIME : value;
  PORT : value;
  PROTOCOL : value;
  FQDN : value
}.

(** The declared fields with their defaults; [None] marks a field
    without default, a required argument of the generated [__init__]. *)
Definition fields : list (string * option value) :=
  [ ("UNIQUE_VULN_ID", None);
    ("QID", None);
    ("TYPE", None);
    ("SEVERITY", None);
    ("STATUS", None);
    ("SSL", Some (VBool false));
    ("RESULTS", Some (VStr EmptyString));
    ("FIRST_FOUND_DATETIME", Some VNone);
    ("LAST_FOUND_DATETIME", Some VNone);
    ("QDS", Some VNone);
    ("QDS_FACTORS", Some VNone);
    ("TIMES_FOUND", Some (VInt 0));
    ("LAST_TEST_DATETIME", Some VNone);
    ("LAST_UPDATE_DATETIME", Some VNone);
    ("IS_IGNORED", Some (VBool false));
    ("IS_DISABLED", Some (VBool false));
    ("LAST_PROCESSED_DATETIME", Some VNone);
    ("LAST_FIXED_DATETIME", Some VNone);
    ("PORT", Some VNone);
    ("PROTOCOL", Some VNone);
    ("FQDN", Some VNone) ].

Definition declared (name : string) : bool := mem name (map fst fields).

Definition getattr (self : t) (name : string) : result value :=
  if String.eqb name "UNIQUE_VULN_ID" then Ok (UNIQUE_VULN_ID self) else
  if String.eqb name "QID" then Ok (QID self) else
  if String.eqb name "TYPE" then Ok (TYPE self) else
  if String.eqb name "SEVERITY" then Ok (SEVERITY self) else
  if String.eqb name "STATUS" then Ok (STATUS self) else
  if String.eqb name "SSL" then Ok (SSL self) else
  if String.eqb name "RESULTS" then Ok (RESULTS self) else
  if String.eqb name "FIRST_FOUND_DATETIME" then Ok (FIRST_FOUND_DATETIME self) else
  if String.eqb name "LAST_FOUND_DATETIME" then Ok (LAST_FOUND_DATETIME self) else
  if String.eqb name "QDS" then Ok (QDS self) else
  if String.eqb name "QDS_FACTORS" then Ok (QDS_FACTORS self) else
  if String.eqb name "TIMES_FOUND" then Ok (TIMES_FOUND self) else
  if String.eqb name "LAST_TEST_DATETIME" then Ok (LAST_TEST_DATETIME self) else
  if String.eqb name "LAST_UPDATE_DATETIME" then Ok (LAST_UPDATE_DATETIME self) else
  if String.eqb name "IS_IGNORED" then Ok (IS_IGNORED self) else
  if String.eqb name "IS_DISABLED" then Ok (IS_DISABLED self) else
  if String.eqb name "LAST_PROCESSED_DATETIME" then Ok (LAST_PROCESSED_DATETIME self) else
  if String.eqb name "LAST_FIXED_DATETIME" then Ok (LAST_FIXED_DATETIME self) else
  if String.eqb name "PORT" then Ok (PORT self) else
  if String.eqb name "PROTOCOL" then Ok (PROTOCOL self) else
  if String.eqb name "FQDN" then Ok (FQDN self) else
  Err (AttributeError name).

(** [setattr(self, name, v)] for a declared field [name]; this file
    sets no other attribute. *)
Definition setattr (self : t) (name : string) (v : value) : t :=
  let pick n old := if String.eqb name n then v else old in
  {| UNIQUE_VULN_ID := pick "UNIQUE_VULN_ID" (UNIQUE_VULN_ID self);
     QID := pick "QID" (QID self);
     TYPE := pick "TYPE" (TYPE self);
     SEVERITY := pick "SEVERITY" (SEVERITY self);
     STATUS := pick "STATUS" (STATUS self);
     SSL := pick "SSL" (SSL self);
     RESULTS := pick "RESULTS" (RESULTS self);
     FIRST_FOUND_DATETIME := pick "FIRST_FOUND_DATETIME" (FIRST_FOUND_DATETIME self);
     LAST_FOUND_DATETIME := pick "LAST_FOUND_DATETIME" (LAST_FOUND_DATETIME self);
     QDS := pick "QDS" (QDS self);
     QDS_FACTORS := pick "QDS_FACTORS" (QDS_FACTORS self);
     TIMES_FOUND := pick "TIMES_FOUND" (TIMES_FOUND self);
     LAST_TEST_DATETIME := pick "LAST_TEST_DATETIME" (LAST_TEST_DATETIME self);
     LAST_UPDATE_DATETIME := pick "LAST_UPDATE_DATETIME" (LAST_UPDATE_DATETIME self);
     IS_IGNORED := pick "IS_IGNORED" (IS_IGNORED self);
     IS_DISABLED := pick "IS_DISABLED" (IS_DISABLED self);
     LAST_PROCESSED_DATETIME := pick "LAST_PROCESSED_DATETIME" (LAST_PROCESSED_DATETIME self);
     LAST_FIXED_DATETIME := pick "LAST_FIXED_DATETIME" (LAST_FIXED_DATETIME self);
     PORT := pick "PORT" (PORT self);
     PROTOCOL := pick "PROTOCOL" (PROTOCOL self);
     FQDN := pick "FQDN" (FQDN self) |}.

(** *** Generated methods of [@dataclass(order=True)] *)

(** The fields compared by the generated comparison methods: those not
    declared [compare=False], in declaration order. *)
Definition compare_fields (self : t) : list value :=
  [QID self; TYPE self; SEVERITY self].

(** [self == other]: the tuples of compared fields are equal. *)
Definition __eq__ (self other : t) : bool :=
  all2 py_eq (compare_fields self) (compare_fields other).

(** [self < other], [<=], [>], [>=]: the same tuples, ordered. *)
Definition rich_compare (op : cmp_op) (self other : t) : option bool :=
  seq_cmp py_eq (py_cmp op) op (compare_fields self) (compare_fields other).

Definition __lt__ := rich_compare OpLt.
Definition __le__ := rich_compare OpLe.
Definition __gt__ := rich_compare OpGt.
Definition __ge__ := rich_compare OpGe.

(** Binding of keyword arguments by the generated [__init__]: a keyword
    that names no field is refused first, then the fields without default
    that were not given; every other field takes the argument or its
    default. *)
Definition required_arguments : list string :=
  map fst (filter (fun f => match snd f with None => true | Some _ => false end) fields).

(** The declared default of [name]; asked only for a field that has one. *)
Definition default (name : string) : value :=
  match find (fun f => String.eqb name (fst f)) fields with
  | Some (_, Some d) => d
  | _ => VNone
  end.

Definition argument (kwargs : dict) (name : string) : value :=
  match dict_get name kwargs with
  | Some v => v
  | None => default name
  end.

Definition bind_arguments (kwargs : dict) : result t :=
  match filter (fun k => negb (declared k)) (dict_keys kwargs) with
  | k :: _ => Err (TypeError (UnexpectedKeyword k))
  | [] =>
      match filter (fun n => negb (dict_has n kwargs)) required_arguments with
      | (_ :: _) as missing => Err (TypeError (MissingArguments missing))
      | [] =>
          let arg := argument kwargs in
          Ok {| UNIQUE_VULN_ID := arg "UNIQUE_VULN_ID";
                QID := arg "QID";
                TYPE := arg "TYPE";
                SEVERITY := arg "SEVERITY";
                STATUS := arg "STATUS";
                SSL := arg "SSL";
                RESULTS := arg "RESULTS";
                FIRST_FOUND_DATETIME := arg "FIRST_FOUND_DATETIME";
                LAST_FOUND_DATETIME := arg "LAST_FOUND_DATETIME";
                QDS := arg "QDS";
                QDS_FACTORS := arg "QDS_FACTORS";
                TIMES_FOUND := arg "TIMES_FOUND";
                LAST_TEST_DATETIME := arg "LAST_TEST_DATETIME";
                LAST_UPDATE_DATETIME := arg "LAST_UPDATE_DATETIME";
                IS_IGNORED := arg "IS_IGNORED";
                IS_DISABLED := arg "IS_DISABLED";
                LAST_PROCESSED_DATETIME := arg "LAST_PROCESSED_DATETIME";
                LAST_FIXED_DATETIME := arg "LAST_FIXED_DATETIME";
                PORT := arg "PORT";
                PROTOCOL := arg "PROTOCOL";
                FQDN := arg "FQDN" |}
      end
  end.

(** *** [__post_init__] *)

Definition DATETIME_FIELDS : list string :=
  [ "FIRST_FOUND_DATETIME"; "LAST_FOUND_DATETIME"; "LAST_TEST_DATETIME";
    "LAST_UPDATE_DATETIME"; "LAST_PROCESSED_DATETIME"; "LAST_FIXED_DATETIME" ].

Definition HTML_FIELDS : list string := [ "RESULTS" ].

Definition BOOL_FIELDS : list string := [ "IS_IGNORED"; "IS_DISABLED"; "SSL" ].

Definition INT_FIELDS : list string :=
  [ "UNIQUE_VULN_ID"; "QID"; "SEVERITY"; "TIMES_FOUND"; "PORT" ].

(** One turn of a loop [for field in FIELDS: if guard(getattr(self, field)):
    setattr(self, field, conv(getattr(self, field)))]. *)
Definition coerce (guard : value -> bool) (conv : value -> result value)
    (self : t) (field : string) : result t :=
  v <- getattr self field ;;
  if guard v then v' <- conv v ;; Ok (setattr self field v') else Ok self.

Fixpoint for_each (body : t -> string -> result t) (names : list string)
    (self : t) : result t :=
  match names with
  | [] => Ok self
  | field :: rest => self' <- body self field ;; for_each body rest self'
  end.

(** The list comprehension
    [[QDSFactor(NAME=factor["@name"], VALUE=factor["#text"]) for factor in ...]]. *)
Definition QDSFactor_of (factor : value) : result value :=
  name <- subscript factor "@name" ;;
  val <- subscript factor "#text" ;;
  Ok (QDSFactor name val).

(** The conditions of the guarded loops: the value is still to convert. *)
Definition raw_datetime (v : value) : bool := is_str v && is_not_None v.
Definition raw_bool (v : value) : bool := negb (is_bool v) && is_not_None v.
Definition raw_int (v : value) : bool := negb (is_int v) && is_not_None v.

Section Methods.

(** [datetime.fromisoformat] on a [str]; [None] is its [ValueError]. *)
Variable fromisoformat : string -> option datetime.

(** [BeautifulSoup(markup, "html.parser").get_text()] on a [str]. *)
Variable get_text : string -> string.

Definition to_datetime (v : value) : result value :=
  match v with
  | VStr s => match fromisoformat s with
              | Some d => Ok (VDatetime d)
              | None => Err (ValueError (InvalidIsoformat s))
              end
  | _ => Err (TypeError NotAString)
  end.

(** bs4 takes markup that is a [str]; anything else in [value] makes the
    constructor raise ([None], [int] and [bool] have no [len()]). *)
Definition soup_text (v : value) : result value :=
  match v with
  | VStr s => Ok (VStr (get_text s))
  | _ => Err (TypeError BadMarkup)
  end.

Definition to_bool (v : value) : result value := Ok (VBool (truthy v)).

Definition to_int (v : value) : result value := n <- py_int v ;; Ok (VInt n).

Definition convert_QDS (self : t) : result t :=
  if truthy (QDS self) then
    severity <- subscript (QDS self) "@severity" ;;
    score <- (text <- subscript (QDS self) "#text" ;; py_int text) ;;
    Ok (setattr self "QDS" (qds severity score))
  else Ok self.

Definition convert_QDS_FACTORS (self : t) : result t :=
  if truthy (QDS_FACTORS self) then
    node <- subscript (QDS_FACTORS self) "QDS_FACTOR" ;;
    match node with
    | VList factors =>
        fs <- mapM QDSFactor_of factors ;;
        Ok (setattr self "QDS_FACTORS" (VList fs))
    | _ =>
        f <- QDSFactor_of node ;;
        Ok (setattr self "QDS_FACTORS" (VList [f]))
    end
  else Ok self.

(** The four coercion loops, each over its list of field names. *)
Definition coerce_datetime : t -> string -> result t :=
  coerce raw_datetime to_datetime.

Definition coerce_html : t -> string -> result t :=
  coerce (fun _ => true) soup_text.

Definition coerce_bool : t -> string -> result t :=
  coerce raw_bool to_bool.

Definition coerce_int : t -> string -> result t :=
  coerce raw_int to_int.

Definition __post_init__ (self : t) : result t :=
  self <- for_each coerce_datetime DATETIME_FIELDS self ;;
  self <- for_each coerce_html HTML_FIELDS self ;;
  self <- for_each coerce_bool BOOL_FIELDS self ;;
  self <- for_each coerce_int INT_FIELDS self ;;
  self <- convert_QDS self ;;
  convert_QDS_FACTORS self.

(** The constructor call: keyword arguments bound to the fields, then
    [__post_init__]. *)
Definition __init__ (kwargs : dict) : result t :=
  self <- bind_arguments kwargs ;;
  __post_init__ self.

(** The keyword arguments [copy] passes to the constructor. *)
Definition copy_arguments (self : t) : dict :=
  [ ("UNIQUE_VULN_ID", UNIQUE_VULN_ID self);
    ("QID", QID self);
    ("TYPE", TYPE self);
    ("SEVERITY", SEVERITY self);
    ("SSL", SSL self);
    ("RESULTS", RESULTS self);
    ("STATUS", STATUS self);
    ("FIRST_FOUND_DATETIME", FIRST_FOUND_DATETIME self);
    ("LAST_FOUND_DATETIME", LAST_FOUND_DATETIME self);
    ("TIMES_FOUND", TIMES_FOUND self);
    ("LAST_TEST_DATETIME", LAST_TEST_DATETIME self);
    ("LAST_UPDATE_DATETIME", LAST_UPDATE_DATETIME self);
    ("LAST_FIXED_DATETIME", LAST_FIXED_DATETIME self);
    ("IS_IGNORED", IS_IGNORED self);
    ("IS_DISABLED", IS_DISABLED self);
    ("LAST_PROCESSED_DATETIME", LAST_PROCESSED_DATETIME self);
    ("QDS", QDS self);
    ("QDS_FACTORS", QDS_FACTORS self);
    ("PORT", PORT self);
    ("PROTOCOL", PROTOCOL self) ].

Definition copy (self : t) : result t := __init__ (copy_arguments self).

Definition required_keys : list string := [ "QID"; "SEVERITY"; "STATUS"; "TYPE" ].

Definition from_dict (data : value) : result t :=
  match data with
  | VDict d =>
      if forallb (fun k => dict_has k d) required_keys
      then __init__ d
      else Err (ValueError (RequiredKeys required_keys))
  | _ => Err (AttributeError "keys")
  end.

End Methods.

Definition to_dict (self : t) : dict :=
  [ ("UNIQUE_VULN_ID", UNIQUE_VULN_ID self);
    ("QID", QID self);
    ("TYPE", TYPE self);
    ("SEVERITY", SEVERITY self);
    ("SSL", SSL self);
    ("RESULTS", RESULTS self);
    ("STATUS", STATUS self);
    ("FIRST_FOUND_DATETIME", FIRST_FOUND_DATETIME self);
    ("LAST_FOUND_DATETIME", LAST_FOUND_DATETIME self);
    ("TIMES_FOUND", TIMES_FOUND self);
    ("LAST_TEST_DATETIME", LAST_TEST_DATETIME self);
    ("LAST_UPDATE_DATETIME", LAST_UPDATE_DATETIME self);
    ("IS_IGNORED", IS_IGNORED self);
    ("IS_DISABLED", IS_DISABLED self);
    ("LAST_PROCESSED_DATETIME", LAST_PROCESSED_DATETIME self);
    ("LAST_FIXED_DATETIME", LAST_FIXED_DATETIME self);
    ("QDS", QDS self);
    ("QDS_FACTORS", QDS_FACTORS self);
    ("PORT", PORT self);
    ("PROTOCOL", PROTOCOL self);
    ("FQDN", FQDN self) ].

(** The guard of a loop does not fire on [field]. *)
Definition settled (guard : value -> bool) (self : t) (field : string) : bool :=
  match getattr self field with
  | Ok v => negb (guard v)
  | Err _ => false
  end.

(** A record on which [__post_init__] finds nothing left to convert in
    its four loops. *)
Definition normalized (self : t) : bool :=
  forallb (settled raw_datetime self) DATETIME_FIELDS
  && is_str (RESULTS self)
  && forallb (settled raw_bool self) BOOL_FIELDS
  && forallb (settled raw_int self) INT_FIELDS.

Definition valid_values (self : t) : list string :=
  map fst (filter (fun kv => is_not_None (snd kv)) (to_dict self)).

(** [__int__] hands out the QID attribute as it is. *)
Definition __int__ (self : t) : value := QID self.

End Detection.

(** * reports.py *)

(** [v[k1][k2]...]: a chain of subscripts, left to right. *)
Fixpoint subscripts (v : value) (keys : list string) : result value :=
  match keys with
  | [] => Ok v
  | k :: rest => x <- subscript v k ;; subscripts x rest
  end.

(** [k in v] for a string [k]: a key of a dict, an element of a list, a
    substring of a str. *)
Definition contains (v : value) (k : string) : result bool :=
  match v with
  | VDict d => Ok (dict_has k d)
  | VList l => Ok (existsb (py_eq (VStr k)) l)
  | VStr s => Ok (match index 0 k s with Some _ => true | None => false end)
  | _ => Err (TypeError NotIterable)
  end.

(** The items a [for] loop over [v] visits: the elements of a list, the
    characters of a str, the keys of a dict. *)
Definition iterate (v : value) : result (list value) :=
  match v with
  | VList l => Ok l
  | VStr s => Ok (map (fun c => VStr (String c EmptyString)) (list_ascii_of_string s))
  | VDict d => Ok (map VStr (dict_keys d))
  | _ => Err (TypeError NotIterable)
  end.

(** A call [f(name=..., **kwargs)]: a key of [kwargs] that repeats an
    argument given by name is refused. *)
Definition spread (named : list string) (kwargs : dict) : result dict :=
  match filter (fun k => mem k named) (dict_keys kwargs) with
  | k :: _ => Err (TypeError (MultipleValues k))
  | [] => Ok kwargs
  end.

(** What [call_api] is given besides the credentials.  [params] and
    [payload] are [None] when the call does not pass them. *)
Record request := mk_request {
  module : string;
  endpoint : string;
  params : option dict;
  payload : option dict;
  headers : option dict
}.

(** The part of [requests.models.Response] that is read here. *)
Record Response := mk_Response { text : string }.

Module Reports.

Section Functions.

(** The credentials handle. *)
Variable BasicAuth : Type.

(** The transport, [qualyspy.base.call_api]. *)
Variable call_api : BasicAuth -> request -> result Response.

(** [qualyspy.base.xml_parser]. *)
Variable xml_parser : string -> result value.

(** The record classes of [data_classes], with their [from_dict]. *)
Variable VMDRReport : Type.
Variable VMDRReport_from_dict : value -> result VMDRReport.
Variable ReportTemplate : Type.
Variable ReportTemplate_from_dict : value -> result ReportTemplate.

Definition sdk_headers : dict := [ ("X-Requested-With", VStr "qualyspy SDK") ].

Definition manage_reports (auth : BasicAuth) (action : string) (kwargs : dict)
  : result Response :=
  let kwargs := dict_set "action" (VStr action) kwargs in
  let kwargs := dict_set "echo_request" (VBool false) kwargs in
  let headers := sdk_headers in
  if String.eqb action "list" then
    call_api auth {| module := "vmdr"; endpoint := "get_report_list";
                     params := Some kwargs; payload := None;
                     headers := Some headers |}
  else if String.eqb action "launch" then
    call_api auth {| module := "vmdr"; endpoint := "launch_report";
                     params := None; payload := Some kwargs;
                     headers := Some headers |}
  else
    Err (NotImplementedError ("Action " ++ action ++ " is not implemented yet.")%string).

(** The records of a parsed report list: a lone report is wrapped into a
    list, then each one goes through [VMDRReport.from_dict]. *)
Definition report_list (data : value) : result (list VMDRReport) :=
  reports <- subscripts data [ "REPORT_LIST_OUTPUT"; "RESPONSE"; "REPORT_LIST"; "REPORT" ] ;;
  let reports := if is_dict reports then VList [reports] else reports in
  items <- iterate reports ;;
  mapM VMDRReport_from_dict items.

Definition get_report_list (auth : BasicAuth) (kwargs : dict)
  : result (list VMDRReport) :=
  kwargs <- spread [ "action" ] kwargs ;;
  response <- manage_reports auth "list" kwargs ;;
  data <- xml_parser (text response) ;;
  report_list data.

Definition get_template_list (auth : BasicAuth) : result (list ReportTemplate) :=
  response <- call_api auth {| module := "vmdr"; endpoint := "get_template_list";
                               params := None; payload := None;
                               headers := Some sdk_headers |} ;;
  data <- xml_parser (text response) ;;
  soft <- contains data "SIMPLE_RETURN" ;;
  if soft : bool then
    message <- subscripts data [ "SIMPLE_RETURN"; "RESPONSE"; "TEXT" ] ;;
    Err (QualysAPIError message)
  else
    templates <- subscripts data [ "REPORT_TEMPLATE_LIST"; "REPORT_TEMPLATE" ] ;;
    let templates := if is_dict templates then VList [templates] else templates in
    items <- iterate templates ;;
    mapM ReportTemplate_from_dict items.

(** The [try]/[except KeyError] that ends [launch_report]. *)
Definition report_id (data : value) : result Z :=
  match (v <- subscripts data [ "SIMPLE_RETURN"; "RESPONSE"; "ITEM_LIST"; "ITEM"; "VALUE" ] ;;
         py_int v) with
  | Ok id => Ok id
  | Err (KeyError _) =>
      message <- subscripts data [ "SIMPLE_RETURN"; "RESPONSE"; "TEXT" ] ;;
      Err (QualysAPIError message)
  | Err e => Err e
  end.

Definition launch_report (auth : BasicAuth) (template_id : value) (kwargs : dict)
  : result Z :=
  let kwargs := dict_set "template_id" template_id kwargs in
  kwargs <- spread [ "action" ] kwargs ;;
  response <- manage_reports auth "launch" kwargs ;;
  data <- xml_parser (text response) ;;
  report_id data.

End Functions.

End Reports.

(** * Reference collaborators

    Concrete stand-ins for the library functions, used to run the model
    on concrete inputs.  The theorems below hold for every choice of
    them. *)

(** Text of markup without entities or comments: everything from a
    ["<"] to the next [">"] is dropped. *)
Fixpoint strip_tags_from (in_tag : bool) (s : string) : string :=
  match s with
  | EmptyString => EmptyString
  | String c s' =>
      if in_tag then strip_tags_from (negb (Ascii.eqb c ">"%char)) s'
      else if Ascii.eqb c "<"%char then strip_tags_from true s'
      else String c (strip_tags_from false s')
  end.

Definition strip_tags : string -> string := strip_tags_from false.

(** [n] decimal digits at the head of [s], and the rest of [s]. *)
Fixpoint take_digits (n : nat) (acc : Z) (s : string) : option (Z * string) :=
  match n, s with
  | O, _ => Some (acc, s)
  | S n', String c s' =>
      match digit_of c with
      | Some d => take_digits n' (10 * acc + d) s'
      | None => None
      end
  | S _, EmptyString => None
  end.

Definition expect (c : ascii) (s : string) : option string :=
  match s with
  | String c' s' => if Ascii.eqb c c' then Some s' else None
  | EmptyString => None
  end.

Definition is_leap (y : Z) : bool :=
  (y mod 4 =? 0) && (negb (y mod 100 =? 0) || (y mod 400 =? 0)).

Definition days_in_month (y m : Z) : Z :=
  if m =? 2 then (if is_leap y then 29 else 28)
  else if (m =? 4) || (m =? 6) || (m =? 9) || (m =? 11) then 30 else 31.

Fixpoint days_before_month (y : Z) (m : nat) : Z :=
  match m with
  | O => 0
  | S m' => days_before_month y m' + days_in_month y (Z.of_nat m)
  end.

(** [date(y, m, d).toordinal()]. *)
Definition toordinal (y m d : Z) : Z :=
  let p := y - 1 in
  p * 365 + p / 4 - p / 100 + p / 400
  + days_before_month y (Z.to_nat (m - 1)) + d.

(** The naive timestamps [YYYY-MM-DD] and [YYYY-MM-DDTHH:MM:SS]. *)
Definition fromisoformat_naive (s : string) : option datetime :=
  let opt {A B} (o : option A) (k : A -> option B) :=
    match o with Some a => k a | None => None end in
  opt (take_digits 4 0 s) (fun '(y, s) =>
  opt (expect "-"%char s) (fun s =>
  opt (take_digits 2 0 s) (fun '(m, s) =>
  opt (expect "-"%char s) (fun s =>
  opt (take_digits 2 0 s) (fun '(d, s) =>
  if (1 <=? y) && (1 <=? m) && (m <=? 12) && (1 <=? d) && (d <=? days_in_month y m)
  then
    let day := (toordinal y m d - 1) * 86400 in
    match s with
    | EmptyString => Some (mk_datetime (day * 1000000) None)
    | String sep s =>
        if Ascii.eqb sep "T"%char || Ascii.eqb sep " "%char then
          opt (take_digits 2 0 s) (fun '(hh, s) =>
          opt (expect ":"%char s) (fun s =>
          opt (take_digits 2 0 s) (fun '(mm, s) =>
          opt (expect ":"%char s) (fun s =>
          opt (take_digits 2 0 s) (fun '(ss, s) =>
          match s with
          | EmptyString =>
              if (hh <=? 23) && (mm <=? 59) && (ss <=? 59)
              then Some (mk_datetime ((day + hh * 3600 + mm * 60 + ss) * 1000000) None)
              else None
          | _ => None
          end)))))
        else None
    end
  else None))))).

(** ** Sample records and mappings *)

(** A detection as the constructor leaves it, without score and factors. *)
Definition confirmed_finding : Detection.t :=
  {| Detection.UNIQUE_VULN_ID := VInt 7;
     Detection.QID := VInt 12345;
     Detection.TYPE := VStr "Confirmed";
     Detection.SEVERITY := VInt 3;
     Detection.STATUS := VStr "Active";
     Detection.SSL := VBool false;
     Detection.RESULTS := VStr "open port";
     Detection.FIRST_FOUND_DATETIME := VNone;
     Detection.LAST_FOUND_DATETIME := VNone;
     Detection.QDS := VNone;
     Detection.QDS_FACTORS := VNone;
     Detection.TIMES_FOUND := VInt 0;
     Detection.LAST_TEST_DATETIME := VNone;
     Detection.LAST_UPDATE_DATETIME := VNone;
     Detection.IS_IGNORED := VBool false;
     Detection.IS_DISABLED := VBool false;
     Detection.LAST_PROCESSED_DATETIME := VNone;
     Detection.LAST_FIXED_DATETIME := VNone;
     Detection.PORT := VInt 443;
     Detection.PROTOCOL := VStr "tcp";
     Detection.FQDN := VStr "host.example.com" |}.

(** The same QID and SEVERITY under the other TYPE. *)
Definition potential_finding : Detection.t :=
  Detection.setattr confirmed_finding "TYPE" (VStr "Potential").

(** The same QID, TYPE and SEVERITY with other auxiliary fields. *)
Definition fixed_finding : Detection.t :=
  Detection.setattr
    (Detection.setattr
       (Detection.setattr confirmed_finding "STATUS" (VStr "Fixed"))
       "UNIQUE_VULN_ID" (VInt 8))
    "TIMES_FOUND" (VInt 12).

Definition scenario_A_entries : dict :=
  [ ("QID", VStr "12345"); ("SEVERITY", VStr "3"); ("STATUS", VStr "Active");
    ("TYPE", VStr "Confirmed");
    ("QDS", VDict [ ("@severity", VStr "2"); ("#text", VStr "45") ]) ].

Definition scenario_A : value := VDict scenario_A_entries.

(** The four keys [from_dict] asks for, and nothing else. *)
Definition required_only : value :=
  VDict [ ("QID", VStr "12345"); ("SEVERITY", VStr "3"); ("STATUS", VStr "Active");
          ("TYPE", VStr "Confirmed") ].

(** Keyword arguments with every required field and RESULTS=None. *)
Definition RESULTS_None_arguments : dict :=
  [ ("UNIQUE_VULN_ID", VInt 7); ("QID", VInt 12345); ("TYPE", VStr "Confirmed");
    ("SEVERITY", VInt 3); ("STATUS", VStr "Active"); ("RESULTS", VNone) ].

(** Keyword arguments from which the constructor builds
    [confirmed_finding]. *)
Definition confirmed_arguments : dict :=
  [ ("UNIQUE_VULN_ID", VStr "7"); ("QID", VStr "12345"); ("TYPE", VStr "Confirmed");
    ("SEVERITY", VStr "3"); ("STATUS", VStr "Active");
    ("RESULTS", VStr "<b>open</b> port"); ("PORT", VStr "443");
    ("PROTOCOL", VStr "tcp"); ("FQDN", VStr "host.example.com") ].

(** The same with one score factor, and the record built from them. *)
Definition factored_arguments : dict :=
  confirmed_arguments
  ++ [ ("QDS_FACTORS",
        VDict [ ("QDS_FACTOR", VDict [ ("@name", VStr "A"); ("#text", VStr "1") ]) ]) ].

Definition factored_finding : Detection.t :=
  Detection.setattr confirmed_finding "QDS_FACTORS"
    (VList [ VQDSFactor (VStr "A") (VStr "1") ]).

(** The QDS_FACTORS node of scenario C, as a list and as a lone factor. *)
Definition factor_A : value := VDict [ ("@name", VStr "A"); ("#text", VStr "1") ].
Definition factor_B : value := VDict [ ("@name", VStr "B"); ("#text", VStr "2") ].
Definition scenario_C_list : value := VDict [ ("QDS_FACTOR", VList [ factor_A; factor_B ]) ].
Definition scenario_C_single : value := VDict [ ("QDS_FACTOR", factor_A) ].

(** Stand-ins for the transport and the parser: a transport that answers
    every request with [body], a parser that knows the texts of [table],
    and report records that are the parsed mappings themselves. *)
Definition canned_transport (body : string) : unit -> request -> result Response :=
  fun _ _ => Ok {| text := body |}.

Definition canned_parser (table : dict) : string -> result value :=
  fun s => match dict_get s table with
           | Some v => Ok v
           | None => Err (CollaboratorError "not well-formed")
           end.

Definition as_parsed : value -> result value := Ok.

(** A report list output around [reports], the value under REPORT. *)
Definition report_list_output (reports : value) : value :=
  VDict [ ("REPORT_LIST_OUTPUT",
           VDict [ ("RESPONSE",
                    VDict [ ("DATETIME", VStr "2024-03-01T10:00:00Z");
                            ("REPORT_LIST", VDict [ ("REPORT", reports) ]) ]) ]) ].

Definition one_report : dict :=
  [ ("ID", VStr "42"); ("TITLE", VStr "Weekly scan"); ("TYPE", VStr "Scan") ].

(** The soft failure of scenario B. *)
Definition scenario_B : value :=
  VDict [ ("SIMPLE_RETURN",
           VDict [ ("RESPONSE",
                    VDict [ ("DATETIME", VStr "2024-03-01T10:00:00Z");
                            ("TEXT", VStr "No reports matched your search criteria.") ]) ]) ].

(** The envelope that answers a launch with the new report's ID. *)
Definition launched : value :=
  VDict [ ("SIMPLE_RETURN",
           VDict [ ("RESPONSE",
                    VDict [ ("DATETIME", VStr "2024-03-01T10:00:00Z");
                            ("TEXT", VStr "New report launched");
                            ("ITEM_LIST",
                             VDict [ ("ITEM", VDict [ ("KEY", VStr "ID");
                                                      ("VALUE", VStr "1665") ]) ]) ]) ]) ].

(** The envelope that refuses a launch. *)
Definition refused : value :=
  VDict [ ("SIMPLE_RETURN",
           VDict [ ("RESPONSE",
                    VDict [ ("DATETIME", VStr "2024-03-01T10:00:00Z");
                            ("CODE", VStr "999");
                            ("TEXT", VStr "Invalid template_id") ]) ]) ].

(** Keyword arguments with a string for SSL, a timestamp and a TYPE
    outside the documented words, and the record built from them. *)
Definition sample_arguments : dict :=
  [ ("UNIQUE_VULN_ID", VStr "7"); ("QID", VStr "12345"); ("TYPE", VStr "Informational");
    ("SEVERITY", VStr "3"); ("STATUS", VStr "Active"); ("SSL", VStr "0");
    ("LAST_FOUND_DATETIME", VStr "2024-03-01T10:00:00");
    ("RESULTS", VStr "<b>open</b> port") ].

Definition sample_finding : Detection.t :=
  {| Detection.UNIQUE_VULN_ID := VInt 7;
     Detection.QID := VInt 12345;
     Detection.TYPE := VStr "Informational";
     Detection.SEVERITY := VInt 3;
     Detection.STATUS := VStr "Active";
     Detection.SSL := VBool true;
     Detection.RESULTS := VStr "open port";
     Detection.FIRST_FOUND_DATETIME := VNone;
     Detection.LAST_FOUND_DATETIME :=
       VDatetime {| wall := 63844884000000000; utcoffset := None |};
     Detection.QDS := VNone;
     Detection.QDS_FACTORS := VNone;
     Detection.TIMES_FOUND := VInt 0;
     Detection.LAST_TEST_DATETIME := VNone;
     Detection.LAST_UPDATE_DATETIME := VNone;
     Detection.IS_IGNORED := VBool false;
     Detection.IS_DISABLED := VBool false;
     Detection.LAST_PROCESSED_DATETIME := VNone;
     Detection.LAST_FIXED_DATETIME := VNone;
     Detection.PORT := VNone;
     Detection.PROTOCOL := VNone;
     Detection.FQDN := VNone |}.

(** A detection whose QID is None. *)
Definition unidentified_finding : Detection.t :=
  Detection.setattr confirmed_finding "QID" VNone.

(** The arguments of [confirmed_finding] with the two factors of
    scenario C, and the record built from them. *)
Definition two_factor_arguments : dict :=
  confirmed_arguments ++ [ ("QDS_FACTORS", scenario_C_list) ].

Definition two_factor_finding : Detection.t :=
  Detection.setattr confirmed_finding "QDS_FACTORS"
    (VList [ VQDSFactor (VStr "A") (VStr "1"); VQDSFactor (VStr "B") (VStr "2") ]).

(** A template list output around [templates], the value under
    REPORT_TEMPLATE. *)
Definition template_list_output (templates : value) : dict :=
  [ ("REPORT_TEMPLATE_LIST", VDict [ ("REPORT_TEMPLATE", templates) ]) ].

Definition one_template : dict :=
  [ ("ID", VStr "1001"); ("TYPE", VStr "Auto"); ("TITLE", VStr "Executive Report") ].

Definition other_report : dict :=
  [ ("ID", VStr "43"); ("TITLE", VStr "Patch status"); ("TYPE", VStr "Patch") ].

(** A launch answered with a VALUE that is no integer. *)
Definition launched_badly : value :=
  VDict [ ("SIMPLE_RETURN",
           VDict [ ("RESPONSE",
                    VDict [ ("TEXT", VStr "New report launched");
                            ("ITEM_LIST",
                             VDict [ ("ITEM", VDict [ ("KEY", VStr "ID");
                                                      ("VALUE", VStr "n/a") ]) ]) ]) ]) ].

(** A report list output without reports. *)
Definition no_reports : value :=
  VDict [ ("REPORT_LIST_OUTPUT",
           VDict [ ("RESPONSE",
                    VDict [ ("DATETIME", VStr "2024-03-01T10:00:00Z") ]) ]) ].

(** A transport that raises [e] on every request. *)
Definition failing_transport (e : exn) : unit -> request -> result Response :=
  fun _ _ => Err e.

(** A launch answered with an empty ITEM_LIST element, which the parser
    hands over as None. *)
Definition launched_empty : value :=
  VDict [ ("SIMPLE_RETURN",
           VDict [ ("RESPONSE",
                    VDict [ ("DATETIME", VStr "2024-03-01T10:00:00Z");
                            ("TEXT", VStr "New report launched");
                            ("ITEM_LIST", VNone) ]) ]) ].

(** An envelope with neither an identifier nor a text. *)
Definition launched_silent : value :=
  VDict [ ("SIMPLE_RETURN",
           VDict [ ("RESPONSE",
                    VDict [ ("DATETIME", VStr "2024-03-01T10:00:00Z") ]) ]) ].

(** * The model on concrete inputs *)

Example int_12345 : py_int (VStr "12345") = Ok 12345.
Proof. reflexivity. Qed.

Example int_padded : py_int (VStr " -1_000 ") = Ok (-1000).
Proof. reflexivity. Qed.

Example int_bad : py_int (VStr "12a") = Err (ValueError (InvalidIntLiteral "12a")).
Proof. reflexivity. Qed.

Example eq_bool_int : py_eq (VBool true) (VInt 1) = true.
Proof. reflexivity. Qed.

Example eq_dict_order :
  py_eq (VDict [("a", VInt 1); ("b", VInt 2)]) (VDict [("b", VInt 2); ("a", VInt 1)]) = true.
Proof. reflexivity. Qed.

Example lt_str : py_cmp OpLt (VStr "Confirmed") (VStr "Potential") = Some true.
Proof. reflexivity. Qed.

Example lt_mixed : py_cmp OpLt (VInt 1) (VStr "1") = None.
Proof. reflexivity. Qed.

Example strip_bold : strip_tags "<b>open</b> port" = "open port".
Proof. reflexivity. Qed.

Example ordinal_2024 : toordinal 2024 3 1 = 738946.
Proof. reflexivity. Qed.

Example iso_bad : fromisoformat_naive "2023-02-29" = None.
Proof. reflexivity. Qed.

Example construct_converts :
  exists self,
    Detection.__init__ fromisoformat_naive strip_tags
      [ ("UNIQUE_VULN_ID", VStr "7"); ("QID", VStr "12345"); ("TYPE", VStr "Confirmed");
        ("SEVERITY", VStr "3"); ("STATUS", VStr "Active"); ("SSL", VStr "0");
        ("LAST_FOUND_DATETIME", VStr "2024-03-01T10:00:00");
        ("QDS_FACTORS", scenario_C_list) ] = Ok self
    /\ Detection.SSL self = VBool true
    /\ Detection.LAST_FOUND_DATETIME self
       = VDatetime {| wall := 63844884000000000; utcoffset := None |}
    /\ Detection.QDS_FACTORS self
       = VList [ VQDSFactor (VStr "A") (VStr "1"); VQDSFactor (VStr "B") (VStr "2") ].
Proof. eexists. split; [vm_compute; reflexivity | repeat split]. Qed.

Example from_dict_of_list :
  Detection.from_dict fromisoformat_naive strip_tags (VList [ scenario_A ])
  = Err (AttributeError "keys").
Proof. reflexivity. Qed.

Example from_dict_unexpected_key :
  Detection.from_dict fromisoformat_naive strip_tags
    (VDict (("UNIQUE_VULN_ID", VStr "7") :: ("HOST_ID", VStr "1") :: scenario_A_entries))
  = Err (TypeError (UnexpectedKeyword "HOST_ID")).
Proof. reflexivity. Qed.

Example from_dict_bad_timestamp :
  Detection.from_dict fromisoformat_naive strip_tags
    (VDict (("UNIQUE_VULN_ID", VStr "7") :: ("LAST_FOUND_DATETIME", VStr "yesterday")
            :: scenario_A_entries))
  = Err (ValueError (InvalidIsoformat "yesterday")).
Proof. reflexivity. Qed.

(** * Facts about dictionaries and values *)

Lemma dict_get_set_same k v d : dict_get k (dict_set k v d) = Some v.
Proof.
  induction d as [|[k' v'] d IH]; simpl.
  - now rewrite String.eqb_refl.
  - destruct (String.eqb k k') eqn:E; simpl.
    + now rewrite String.eqb_refl.
    + now rewrite E.
Qed.

Lemma dict_get_set_other k k' v d :
  k' <> k -> dict_get k' (dict_set k v d) = dict_get k' d.
Proof.
  intros Hne. induction d as [|[k0 v0] d IH]; simpl.
  - destruct (String.eqb_spec k' k); congruence.
  - destruct (String.eqb_spec k k0) as [->|Hk]; simpl.
    + destruct (String.eqb_spec k' k0); congruence.
    + destruct (String.eqb_spec k' k0); congruence.
Qed.

Lemma dict_has_get k d : dict_has k d = true <-> exists v, dict_get k d = Some v.
Proof.
  unfold dict_has, dict_keys, mem.
  induction d as [|[k' v'] d IH]; simpl.
  - split; [discriminate | intros [v H]; discriminate].
  - destruct (String.eqb k k'); simpl.
    + split; eauto.
    + exact IH.
Qed.

Lemma dict_has_false k d : dict_has k d = false <-> dict_get k d = None.
Proof.
  destruct (dict_get k d) eqn:G, (dict_has k d) eqn:H; split; try congruence.
  - assert (X : dict_has k d = true) by (apply dict_has_get; eauto). congruence.
  - apply dict_has_get in H. destruct H as [w H]. congruence.
Qed.

Lemma dict_get_app_fresh k v pre d :
  dict_has k pre = false -> dict_get k (pre ++ (k, v) :: d) = Some v.
Proof.
  unfold dict_has, dict_keys, mem.
  induction pre as [|[k' v'] pre IH]; simpl.
  - now rewrite String.eqb_refl.
  - destruct (String.eqb k k'); simpl; [discriminate | exact IH].
Qed.

Lemma dict_has_snoc k k' v pre :
  dict_has k (pre ++ [(k', v)]) = mem k (k' :: dict_keys pre).
Proof.
  unfold dict_has, dict_keys, mem. rewrite map_app, existsb_app. simpl.
  rewrite orb_false_r. apply orb_comm.
Qed.

(** Induction on values, with the hypothesis for every element of a
    list and every bound value of a dict. *)
Section ValueInduction.

Variable P : value -> Prop.
Hypothesis HNone : P VNone.
Hypothesis HBool : forall b, P (VBool b).
Hypothesis HInt : forall n, P (VInt n).
Hypothesis HStr : forall s, P (VStr s).
Hypothesis HList : forall l, Forall P l -> P (VList l).
Hypothesis HDict : forall d, Forall (fun kv => P (snd kv)) d -> P (VDict d).
Hypothesis HDatetime : forall t, P (VDatetime t).
Hypothesis HQDS : forall s n, P s -> P (VQDS s n).
Hypothesis HQDSFactor : forall n v, P n -> P v -> P (VQDSFactor n v).

Fixpoint value_nested_ind (v : value) : P v :=
  match v with
  | VNone => HNone
  | VBool b => HBool b
  | VInt n => HInt n
  | VStr s => HStr s
  | VList l =>
      HList l ((fix all l : Forall P l :=
                  match l with
                  | [] => Forall_nil _
                  | x :: l' => Forall_cons x (value_nested_ind x) (all l')
                  end) l)
  | VDict d =>
      HDict d ((fix all d : Forall (fun kv => P (snd kv)) d :=
                  match d with
                  | [] => Forall_nil _
                  | kv :: d' => Forall_cons kv (value_nested_ind (snd kv)) (all d')
                  end) d)
  | VDatetime t => HDatetime t
  | VQDS s n => HQDS s n (value_nested_ind s)
  | VQDSFactor n w => HQDSFactor n w (value_nested_ind n) (value_nested_ind w)
  end.

End ValueInduction.

Lemma all2_refl {A} (f : A -> A -> bool) l :
  Forall (fun x => f x x = true) l -> all2 f l l = true.
Proof.
  induction 1 as [|x l Hx _ IH]; simpl; [reflexivity|].
  now rewrite Hx, IH.
Qed.

Lemma bindings_match_refl (f : value -> value -> bool) d :
  Forall (fun kv => f (snd kv) (snd kv) = true) d ->
  forall pre seen,
    (forall k, mem k seen = dict_has k pre) ->
    bindings_match f (pre ++ d) seen d = true.
Proof.
  induction 1 as [|[k v] d Hv _ IH]; intros pre seen Hseen; simpl; [reflexivity|].
  apply andb_true_iff. split.
  - destruct (mem k seen) eqn:M; [reflexivity|]. simpl.
    rewrite dict_get_app_fresh by (now rewrite <- Hseen). exact Hv.
  - replace (pre ++ (k, v) :: d) with ((pre ++ [(k, v)]) ++ d)
      by (now rewrite <- app_assoc).
    apply IH. intros k'. rewrite dict_has_snoc. simpl.
    unfold mem in *. simpl. f_equal. rewrite Hseen. reflexivity.
Qed.

Lemma dict_has_keys d : forallb (fun k => dict_has k d) (dict_keys d) = true.
Proof.
  apply forallb_forall. intros k Hin. unfold dict_has, mem.
  apply existsb_exists. exists k. split; [exact Hin | apply String.eqb_refl].
Qed.

(** Every value equals itself. *)
Lemma py_eq_refl v : py_eq v v = true.
Proof.
  induction v using value_nested_ind; simpl.
  - reflexivity.
  - apply eqb_reflx.
  - apply Z.eqb_refl.
  - apply String.eqb_refl.
  - now apply all2_refl.
  - rewrite dict_has_keys. simpl.
    apply (bindings_match_refl py_eq d H [] []). reflexivity.
  - unfold datetime_eqb. destruct (utcoffset t); apply Z.eqb_refl.
  - now rewrite IHv, Z.eqb_refl.
  - now rewrite IHv1, IHv2.
Qed.

(** Equal sequences are neither below nor above one another. *)
Lemma seq_cmp_refl (cmp : value -> value -> option bool) op l :
  seq_cmp py_eq cmp op l l = Some (holds op Eq).
Proof.
  induction l as [|x l IH]; simpl; [reflexivity|].
  now rewrite py_eq_refl.
Qed.

(** * The generated comparison methods *)

Section Comparison.

Import Detection.

(** C2, as the code has it: [==] and the four orderings of two
    detections read QID, TYPE and SEVERITY and nothing else.  Replacing
    either operand by a detection with the same three fields leaves every
    comparison unchanged, and two detections that agree on the three are
    equal, neither below nor above the other, whatever their other fields
    hold. *)
Theorem comparison_reads_QID_TYPE_SEVERITY (a a' b b' : Detection.t) :
  QID a = QID a' -> TYPE a = TYPE a' -> SEVERITY a = SEVERITY a' ->
  QID b = QID b' -> TYPE b = TYPE b' -> SEVERITY b = SEVERITY b' ->
  (__eq__ a b = __eq__ a' b' /\ forall op, rich_compare op a b = rich_compare op a' b')
  /\ __eq__ a a' = true
  /\ __lt__ a a' = Some false /\ __le__ a a' = Some true
  /\ __gt__ a a' = Some false /\ __ge__ a a' = Some true.
Proof.
  intros Hq Ht Hs Hq' Ht' Hs'.
  assert (Ka : compare_fields a = compare_fields a')
    by (unfold compare_fields; congruence).
  assert (Kb : compare_fields b = compare_fields b')
    by (unfold compare_fields; congruence).
  unfold __lt__, __le__, __gt__, __ge__, __eq__, rich_compare.
  rewrite <- Ka, <- Kb. repeat split.
  - apply all2_refl, Forall_forall. intros x _. apply py_eq_refl.
  - apply seq_cmp_refl.
  - apply seq_cmp_refl.
  - apply seq_cmp_refl.
  - apply seq_cmp_refl.
Qed.

End Comparison.

(** The theorem at two detections that differ in UNIQUE_VULN_ID, STATUS
    and TIMES_FOUND only. *)
Lemma comparison_reads_QID_TYPE_SEVERITY_witness :
  Detection.__eq__ confirmed_finding fixed_finding = true
  /\ Detection.__lt__ confirmed_finding fixed_finding = Some false
  /\ Detection.STATUS confirmed_finding <> Detection.STATUS fixed_finding.
Proof.
  pose proof (comparison_reads_QID_TYPE_SEVERITY
                confirmed_finding fixed_finding confirmed_finding fixed_finding
                eq_refl eq_refl eq_refl eq_refl eq_refl eq_refl) as H.
  split; [apply H | split; [apply H | discriminate]].
Defined.

(** C2, as the claim has it, fails: two detections with the same QID and
    SEVERITY and different TYPE are unequal, and one is below the other. *)
Lemma same_QID_SEVERITY_not_equal :
  Detection.QID confirmed_finding = Detection.QID potential_finding
  /\ Detection.SEVERITY confirmed_finding = Detection.SEVERITY potential_finding
  /\ Detection.__eq__ confirmed_finding potential_finding = false
  /\ Detection.__lt__ confirmed_finding potential_finding = Some true
  /\ Detection.__lt__ potential_finding confirmed_finding = Some false.
Proof. repeat split. Qed.

(** * Construction of a Detection *)

Section Construction.

Import Detection.

Variable fromisoformat : string -> option datetime.
Variable get_text : string -> string.

Local Abbreviation from_dict := (Detection.from_dict fromisoformat get_text).
Local Abbreviation __init__ := (Detection.__init__ fromisoformat get_text).

(** [from_dict] refuses a mapping that lacks one of its four required
    keys, with the [ValueError] that lists the four. *)
Lemma from_dict_missing_required_key (d : dict) (k : string) :
  In k required_keys -> dict_has k d = false ->
  from_dict (VDict d) = Err (ValueError (RequiredKeys required_keys)).
Proof.
  intros Hin Hk. unfold Detection.from_dict.
  destruct (forallb (fun k => dict_has k d) required_keys) eqn:E; [|reflexivity].
  rewrite forallb_forall in E. rewrite (E k Hin) in Hk. discriminate.
Qed.

(** The constructor refuses keyword arguments that lack a field without
    default. *)
Lemma bind_arguments_missing (kwargs : dict) (name : string) :
  In name required_arguments -> dict_has name kwargs = false ->
  exists e, bind_arguments kwargs = Err (TypeError e).
Proof.
  intros Hin Hk. unfold bind_arguments.
  destruct (filter _ (dict_keys kwargs)) as [|k ks]; [|eauto].
  destruct (filter (fun n => negb (dict_has n kwargs)) required_arguments)
    as [|m ms] eqn:F; [|eauto].
  assert (X : In name (filter (fun n => negb (dict_has n kwargs)) required_arguments))
    by (apply filter_In; split; [exact Hin | now rewrite Hk]).
  rewrite F in X. destruct X.
Qed.

(** No record comes out of a mapping that lacks a field without default,
    UNIQUE_VULN_ID included. *)
Lemma from_dict_no_partial_record (d : dict) (name : string) :
  In name required_arguments -> dict_has name d = false ->
  exists e, from_dict (VDict d) = Err e.
Proof.
  intros Hin Hk. unfold Detection.from_dict.
  destruct (forallb _ required_keys); [|eauto].
  unfold Detection.__init__.
  destruct (bind_arguments_missing d name Hin Hk) as [e ->]. simpl. eauto.
Qed.

(** C3, as the code has it: the mapping of scenario A together with a
    UNIQUE_VULN_ID that reads as an integer builds the record with integer
    UNIQUE_VULN_ID, QID 12345 and SEVERITY 3, the score of severity "2"
    and value 45, and every other field at its declared default. *)
Theorem scenario_A_with_UNIQUE_VULN_ID (s : string) (n : Z) :
  get_text EmptyString = EmptyString ->
  parse_int s = Some n ->
  from_dict (VDict (("UNIQUE_VULN_ID", VStr s) :: scenario_A_entries))
  = Ok {| UNIQUE_VULN_ID := VInt n;
          QID := VInt 12345;
          TYPE := VStr "Confirmed";
          SEVERITY := VInt 3;
          STATUS := VStr "Active";
          SSL := VBool false;
          RESULTS := VStr EmptyString;
          FIRST_FOUND_DATETIME := VNone;
          LAST_FOUND_DATETIME := VNone;
          QDS := VQDS (VStr "2") 45;
          QDS_FACTORS := VNone;
          TIMES_FOUND := VInt 0;
          LAST_TEST_DATETIME := VNone;
          LAST_UPDATE_DATETIME := VNone;
          IS_IGNORED := VBool false;
          IS_DISABLED := VBool false;
          LAST_PROCESSED_DATETIME := VNone;
          LAST_FIXED_DATETIME := VNone;
          PORT := VNone;
          PROTOCOL := VNone;
          FQDN := VNone |}.
Proof.
  intros Hempty Hs.
  cbv -[parse_int].
  rewrite Hempty, Hs. reflexivity.
Qed.

(** C4 at the mapping that holds the four required keys and lacks
    UNIQUE_VULN_ID: the key check passes, and the failure is the
    constructor's [TypeError], not the [ValueError] of the check. *)
Theorem from_dict_without_UNIQUE_VULN_ID :
  from_dict required_only = Err (TypeError (MissingArguments [ "UNIQUE_VULN_ID" ])).
Proof. reflexivity. Qed.

End Construction.

(** The theorem at UNIQUE_VULN_ID "7", with the reference collaborators. *)
Lemma scenario_A_with_UNIQUE_VULN_ID_witness :
  strip_tags EmptyString = EmptyString
  /\ parse_int "7" = Some 7
  /\ exists self,
       Detection.from_dict fromisoformat_naive strip_tags
         (VDict (("UNIQUE_VULN_ID", VStr "7") :: scenario_A_entries)) = Ok self
       /\ Detection.QID self = VInt 12345
       /\ Detection.QDS self = VQDS (VStr "2") 45.
Proof.
  split; [reflexivity | split; [reflexivity |]].
  eexists. split.
  - exact (scenario_A_with_UNIQUE_VULN_ID fromisoformat_naive strip_tags "7" 7
             eq_refl eq_refl).
  - split; reflexivity.
Defined.

(** C3, as the claim has it, fails: the mapping of scenario A holds no
    UNIQUE_VULN_ID, a field without default, and builds no record. *)
Lemma scenario_A_builds_no_record :
  Detection.from_dict fromisoformat_naive strip_tags scenario_A
  = Err (TypeError (MissingArguments [ "UNIQUE_VULN_ID" ])).
Proof. reflexivity. Qed.

(** * Attributes and the coercion loops *)

Section Attributes.

Import Detection.

Lemma getattr_setattr_other (self : t) (f g : string) (v : value) :
  g <> f -> getattr (setattr self f v) g = getattr self g.
Proof.
  intros Hne. unfold getattr, setattr. cbn.
  repeat match goal with
  | |- (if String.eqb g ?n then _ else _) = _ =>
      destruct (String.eqb_spec g n) as [->|?];
      [ destruct (String.eqb_spec f n); [congruence | reflexivity] | ]
  end.
  reflexivity.
Qed.

Lemma setattr_comm (self : t) (f g : string) (v w : value) :
  f <> g -> setattr (setattr self g w) f v = setattr (setattr self f v) g w.
Proof.
  intros Hne. destruct self. unfold setattr. cbn.
  repeat match goal with
  | |- context [String.eqb f ?n] =>
      destruct (String.eqb_spec f n) as [->|?];
      [ rewrite (proj2 (String.eqb_neq g n)) by congruence; reflexivity | ]
  end.
  reflexivity.
Qed.

Lemma setattr_setattr (self : t) (f : string) (v w : value) :
  setattr (setattr self f w) f v = setattr self f v.
Proof.
  destruct self. unfold setattr. cbn.
  repeat match goal with
  | |- context [String.eqb f ?n] =>
      destruct (String.eqb_spec f n) as [->|?]; [reflexivity|]
  end.
  reflexivity.
Qed.

(** A turn of a loop on field [f] leaves every other attribute alone. *)
Lemma coerce_getattr_other guard conv (self self' : t) (f g : string) :
  coerce guard conv self f = Ok self' -> g <> f ->
  getattr self' g = getattr self g.
Proof.
  unfold coerce. intros H Hne.
  destruct (getattr self f) as [v|e]; simpl in H; [|discriminate].
  destruct (guard v).
  - destruct (conv v) as [v'|e]; simpl in H; [|discriminate].
    injection H as <-. now apply getattr_setattr_other.
  - now injection H as <-.
Qed.

Lemma for_each_getattr_other guard conv (names : list string) (g : string) :
  ~ In g names ->
  forall self self',
    for_each (coerce guard conv) names self = Ok self' ->
    getattr self' g = getattr self g.
Proof.
  induction names as [|f names IH]; intros Hnot self self' H; simpl in H.
  - now injection H as <-.
  - destruct (coerce guard conv self f) as [s1|e] eqn:E; simpl in H; [|discriminate].
    rewrite (IH (fun X => Hnot (or_intror X)) s1 self' H).
    apply (coerce_getattr_other _ _ _ _ _ _ E).
    intros ->. apply Hnot. now left.
Qed.

End Attributes.

(** * The coercion of RESULTS *)

Section Results.

Import Detection.

Variable fromisoformat : string -> option datetime.
Variable get_text : string -> string.

Local Abbreviation __init__ := (Detection.__init__ fromisoformat get_text).
Local Abbreviation coerce_datetime := (Detection.coerce_datetime fromisoformat).
Local Abbreviation coerce_html := (Detection.coerce_html get_text).

Lemma bind_arguments_argument (kwargs : dict) (self : t) :
  bind_arguments kwargs = Ok self ->
  forall name v, dict_get name kwargs = Some v -> getattr self name = Ok v.
Proof.
  unfold bind_arguments. intros H name v Hget.
  destruct (filter _ (dict_keys kwargs)) as [|k ks] eqn:F; [|discriminate].
  destruct (filter (fun n => negb (dict_has n kwargs)) required_arguments);
    [|discriminate].
  injection H as <-.
  assert (Hin : In name (dict_keys kwargs)).
  { assert (X : dict_has name kwargs = true) by (apply dict_has_get; eauto).
    unfold dict_has, mem in X. apply existsb_exists in X.
    destruct X as [k [Hk E]]. apply String.eqb_eq in E. now subst. }
  assert (Hdecl : declared name = true).
  { destruct (declared name) eqn:M; [reflexivity|].
    assert (X : In name (filter (fun k => negb (declared k)) (dict_keys kwargs)))
      by (apply filter_In; split; [exact Hin | now rewrite M]).
    rewrite F in X. destruct X. }
  unfold declared, mem in Hdecl. apply existsb_exists in Hdecl.
  destruct Hdecl as [n [Hn E]]. apply String.eqb_eq in E. subst n.
  simpl in Hn.
  repeat (destruct Hn as [<-|Hn];
          [ unfold getattr, argument; simpl; now rewrite Hget | ]).
  destruct Hn.
Qed.

(** C10: a constructor call with RESULTS=None raises.  When the
    arguments bind and the timestamps parse, the exception is the one bs4
    raises on markup that is no string.  The markup loop has no guard:
    on a field that holds None it raises, where the timestamp, boolean
    and integer loops leave the field as it is. *)
Theorem RESULTS_None_raises (kwargs : dict) :
  dict_get "RESULTS" kwargs = Some VNone ->
  (exists e, __init__ kwargs = Err e)
  /\ (forall self self',
        bind_arguments kwargs = Ok self ->
        for_each coerce_datetime DATETIME_FIELDS self = Ok self' ->
        __init__ kwargs = Err (TypeError BadMarkup))
  /\ (forall self field,
        getattr self field = Ok VNone ->
        coerce_datetime self field = Ok self
        /\ coerce_bool self field = Ok self
        /\ coerce_int self field = Ok self
        /\ coerce_html self field = Err (TypeError BadMarkup)).
Proof.
  intros Hres.
  assert (Step : forall self self',
             bind_arguments kwargs = Ok self ->
             for_each coerce_datetime DATETIME_FIELDS self = Ok self' ->
             __init__ kwargs = Err (TypeError BadMarkup)).
  { intros self self' Hbind Hdt.
    unfold Detection.__init__, __post_init__. rewrite Hbind. cbn [bind].
    rewrite Hdt. cbn [bind].
    assert (G : getattr self' "RESULTS" = Ok VNone).
    { unfold Detection.coerce_datetime in Hdt.
      rewrite (for_each_getattr_other _ _ DATETIME_FIELDS "RESULTS") with (self := self)
        by (try exact Hdt; simpl; intuition discriminate).
      now apply (bind_arguments_argument kwargs). }
    unfold HTML_FIELDS. cbn [for_each].
    unfold Detection.coerce_html at 1, coerce. rewrite G. reflexivity. }
  split; [|split].
  - destruct (bind_arguments kwargs) as [self|e] eqn:B.
    + destruct (for_each coerce_datetime DATETIME_FIELDS self) as [self'|e] eqn:D.
      * exists (TypeError BadMarkup). exact (Step self self' eq_refl D).
      * exists e. unfold Detection.__init__, __post_init__.
        rewrite B. cbn [bind]. rewrite D. reflexivity.
    + exists e. unfold Detection.__init__. rewrite B. reflexivity.
  - exact Step.
  - intros self field G.
    unfold Detection.coerce_datetime, coerce_bool, coerce_int,
      Detection.coerce_html, coerce.
    rewrite G. simpl. repeat split.
Qed.

End Results.

(** The theorem at arguments that bind and hold no timestamp. *)
Lemma RESULTS_None_raises_witness :
  dict_get "RESULTS" RESULTS_None_arguments = Some VNone
  /\ Detection.__init__ fromisoformat_naive strip_tags RESULTS_None_arguments
     = Err (TypeError BadMarkup).
Proof.
  split; [reflexivity|].
  destruct (RESULTS_None_raises fromisoformat_naive strip_tags
              RESULTS_None_arguments eq_refl) as [_ [H _]].
  eapply H; reflexivity.
Defined.

(** * What the constructor leaves behind *)

Section Normalization.

Import Detection.

Lemma getattr_setattr_same (self : t) (f : string) (v : value) :
  declared f = true -> getattr (setattr self f v) f = Ok v.
Proof.
  unfold declared, mem, getattr, setattr. cbn.
  repeat match goal with
  | |- context [String.eqb f ?n] => destruct (String.eqb f n); [reflexivity|]
  end.
  discriminate.
Qed.

Lemma getattr_declared (self : t) (f : string) :
  declared f = true -> exists v, getattr self f = Ok v.
Proof.
  unfold declared, mem, getattr. cbn.
  repeat match goal with
  | |- context [String.eqb f ?n] => destruct (String.eqb f n); [eauto|]
  end.
  discriminate.
Qed.

Lemma settled_ext guard (self self' : t) (f : string) :
  getattr self' f = getattr self f -> settled guard self' f = settled guard self f.
Proof. unfold settled. now intros ->. Qed.

Lemma forallb_settled_ext guard (self self' : t) (names : list string) :
  (forall f, In f names -> getattr self' f = getattr self f) ->
  forallb (settled guard self') names = forallb (settled guard self) names.
Proof.
  intros H. induction names as [|f names IH]; simpl; [reflexivity|].
  rewrite (settled_ext guard self self' f) by (apply H; now left).
  rewrite IH; [reflexivity|]. intros g Hg. apply H. now right.
Qed.

(** A turn whose conversion yields a converted value settles its field. *)
Lemma coerce_settles guard conv (self self' : t) (f : string) :
  (forall v v', guard v = true -> conv v = Ok v' -> guard v' = false) ->
  declared f = true ->
  coerce guard conv self f = Ok self' -> settled guard self' f = true.
Proof.
  intros Hconv Hf H. unfold coerce in H. unfold settled.
  destruct (getattr self f) as [v|e] eqn:G; simpl in H; [|discriminate].
  destruct (guard v) eqn:Gv.
  - destruct (conv v) as [v'|e] eqn:C; simpl in H; [|discriminate].
    injection H as <-. rewrite getattr_setattr_same by exact Hf.
    now rewrite (Hconv v v' Gv C).
  - injection H as <-. now rewrite G, Gv.
Qed.

Lemma for_each_settles guard conv (names : list string) :
  (forall v v', guard v = true -> conv v = Ok v' -> guard v' = false) ->
  NoDup names -> forallb declared names = true ->
  forall self self',
    for_each (coerce guard conv) names self = Ok self' ->
    forallb (settled guard self') names = true.
Proof.
  intros Hconv Hnd. induction Hnd as [|f names Hnot _ IH];
    intros Hdecl self self' H; simpl in *; [reflexivity|].
  apply andb_true_iff in Hdecl. destruct Hdecl as [Hf Hrest].
  destruct (coerce guard conv self f) as [s1|e] eqn:E; simpl in H; [|discriminate].
  apply andb_true_iff. split.
  - rewrite (settled_ext guard s1 self' f)
      by (apply (for_each_getattr_other guard conv names f Hnot s1 self' H)).
    exact (coerce_settles guard conv self s1 f Hconv Hf E).
  - exact (IH Hrest s1 self' H).
Qed.

(** A loop whose guard fires on none of its fields changes nothing. *)
Lemma for_each_settled guard conv (names : list string) (self : t) :
  forallb (settled guard self) names = true ->
  for_each (coerce guard conv) names self = Ok self.
Proof.
  induction names as [|f names IH]; simpl; intros H; [reflexivity|].
  apply andb_true_iff in H. destruct H as [Hf Hrest].
  unfold settled in Hf. unfold coerce at 1.
  destruct (getattr self f) as [v|e]; [|discriminate]. simpl.
  apply negb_true_iff in Hf. rewrite Hf. simpl. exact (IH Hrest).
Qed.

Variable fromisoformat : string -> option datetime.
Variable get_text : string -> string.

Local Abbreviation __post_init__ := (Detection.__post_init__ fromisoformat get_text).
Local Abbreviation __init__ := (Detection.__init__ fromisoformat get_text).
Local Abbreviation copy := (Detection.copy fromisoformat get_text).

Lemma convert_QDS_getattr_other (self self' : t) (g : string) :
  convert_QDS self = Ok self' -> g <> "QDS" -> getattr self' g = getattr self g.
Proof.
  unfold convert_QDS. intros H Hne. destruct (truthy (QDS self)).
  - destruct (subscript (QDS self) "@severity"); simpl in H; [|discriminate].
    destruct (subscript (QDS self) "#text") as [x|]; simpl in H; [|discriminate].
    destruct (py_int x); simpl in H; [|discriminate].
    injection H as <-. now apply getattr_setattr_other.
  - now injection H as <-.
Qed.

Lemma convert_QDS_FACTORS_getattr_other (self self' : t) (g : string) :
  convert_QDS_FACTORS self = Ok self' -> g <> "QDS_FACTORS" ->
  getattr self' g = getattr self g.
Proof.
  unfold convert_QDS_FACTORS. intros H Hne. destruct (truthy (QDS_FACTORS self)).
  - destruct (subscript (QDS_FACTORS self) "QDS_FACTOR") as [node|];
      simpl in H; [|discriminate].
    destruct node;
      match type of H with
      | context [mapM ?f ?l] => destruct (mapM f l); simpl in H; [|discriminate]
      | context [QDSFactor_of ?x] => destruct (QDSFactor_of x); simpl in H; [|discriminate]
      end;
      injection H as <-; now apply getattr_setattr_other.
  - now injection H as <-.
Qed.

Lemma for_each_html (self self' : t) :
  for_each (coerce_html get_text) HTML_FIELDS self = Ok self' ->
  exists s, RESULTS self = VStr s
            /\ self' = setattr self "RESULTS" (VStr (get_text s)).
Proof.
  unfold HTML_FIELDS, coerce_html, coerce. cbn.
  destruct (RESULTS self); cbn; intros H; try discriminate.
  injection H as <-. eauto.
Qed.

(** Whatever [__post_init__] returns is normalized. *)
Lemma post_init_normalized (self self' : t) :
  __post_init__ self = Ok self' -> normalized self' = true.
Proof.
  unfold Detection.__post_init__. intros H.
  destruct (for_each (coerce_datetime fromisoformat) DATETIME_FIELDS self)
    as [s1|] eqn:E1; cbn [bind] in H; [|discriminate].
  destruct (for_each (coerce_html get_text) HTML_FIELDS s1)
    as [s2|] eqn:E2; cbn [bind] in H; [|discriminate].
  destruct (for_each coerce_bool BOOL_FIELDS s2)
    as [s3|] eqn:E3; cbn [bind] in H; [|discriminate].
  destruct (for_each coerce_int INT_FIELDS s3)
    as [s4|] eqn:E4; cbn [bind] in H; [|discriminate].
  destruct (convert_QDS s4) as [s5|] eqn:E5; cbn [bind] in H; [|discriminate].
  pose proof (fun g => convert_QDS_FACTORS_getattr_other s5 self' g H) as F6.
  pose proof (fun g => convert_QDS_getattr_other s4 s5 g E5) as F5.
  pose proof (fun g Hg => for_each_getattr_other _ _ INT_FIELDS g Hg s3 s4 E4) as F4.
  pose proof (fun g Hg => for_each_getattr_other _ _ BOOL_FIELDS g Hg s2 s3 E3) as F3.
  pose proof (fun g Hg => for_each_getattr_other _ _ HTML_FIELDS g Hg s1 s2 E2) as F2.
  assert (S1 : forallb (settled raw_datetime s1) DATETIME_FIELDS = true).
  { apply (for_each_settles raw_datetime (to_datetime fromisoformat)
             DATETIME_FIELDS) with (self := self); try exact E1.
    - intros v v' _ C. unfold to_datetime in C. destruct v; try discriminate.
      destruct (fromisoformat s); [|discriminate]. now injection C as <-.
    - repeat constructor; simpl; intuition discriminate.
    - reflexivity. }
  assert (S3 : forallb (settled raw_bool s3) BOOL_FIELDS = true).
  { apply (for_each_settles raw_bool to_bool BOOL_FIELDS) with (self := s2);
      try exact E3.
    - intros v v' _ C. unfold to_bool in C. now injection C as <-.
    - repeat constructor; simpl; intuition discriminate.
    - reflexivity. }
  assert (S4 : forallb (settled raw_int s4) INT_FIELDS = true).
  { apply (for_each_settles raw_int to_int INT_FIELDS) with (self := s3);
      try exact E4.
    - intros v v' _ C. unfold to_int in C.
      destruct (py_int v); simpl in C; [|discriminate]. now injection C as <-.
    - repeat constructor; simpl; intuition discriminate.
    - reflexivity. }
  destruct (for_each_html s1 s2 E2) as [s [_ R2]].
  unfold normalized. rewrite !andb_true_iff. split; [split; [split|]|].
  - rewrite (forallb_settled_ext raw_datetime s1 self' DATETIME_FIELDS);
      [exact S1|].
    intros f Hf. simpl in Hf.
    repeat (destruct Hf as [<-|Hf];
            [ rewrite F6, F5, F4, F3, F2
                by (simpl; intuition discriminate); reflexivity | ]).
    destruct Hf.
  - assert (G : getattr self' "RESULTS" = getattr s2 "RESULTS")
      by (rewrite F6, F5, F4, F3 by (simpl; intuition discriminate); reflexivity).
    cbn in G. injection G as ->. now rewrite R2.
  - rewrite (forallb_settled_ext raw_bool s3 self' BOOL_FIELDS); [exact S3|].
    intros f Hf. simpl in Hf.
    repeat (destruct Hf as [<-|Hf];
            [ rewrite F6, F5, F4 by (simpl; intuition discriminate); reflexivity | ]).
    destruct Hf.
  - rewrite (forallb_settled_ext raw_int s4 self' INT_FIELDS); [exact S4|].
    intros f Hf. simpl in Hf.
    repeat (destruct Hf as [<-|Hf];
            [ rewrite F6, F5 by (simpl; intuition discriminate); reflexivity | ]).
    destruct Hf.
Qed.

End Normalization.

(** * copy *)

Section Copy.

Import Detection.

Variable fromisoformat : string -> option datetime.
Variable get_text : string -> string.

Local Abbreviation __post_init__ := (Detection.__post_init__ fromisoformat get_text).
Local Abbreviation __init__ := (Detection.__init__ fromisoformat get_text).
Local Abbreviation copy := (Detection.copy fromisoformat get_text).

(** The constructor call of [copy] binds every field to the original's,
    except FQDN, which is not passed and takes its default. *)
Lemma bind_copy_arguments (self : t) :
  bind_arguments (copy_arguments self) = Ok (setattr self "FQDN" VNone).
Proof. destruct self. reflexivity. Qed.

Lemma normalized_setattr_FQDN (self : t) (v : value) :
  normalized (setattr self "FQDN" v) = normalized self.
Proof. destruct self. vm_compute. reflexivity. Qed.

(** FQDN is the one key of [to_dict] that [copy] does not pass. *)
Lemma copy_arguments_omit (self : t) :
  filter (fun k => negb (dict_has k (copy_arguments self))) (dict_keys (to_dict self))
  = [ "FQDN" ].
Proof. reflexivity. Qed.

(** On a normalized record without score and factors, [__post_init__]
    only extracts the text of RESULTS once more. *)
Lemma post_init_of_normalized (self : t) (s : string) :
  normalized self = true ->
  truthy (QDS self) = false -> truthy (QDS_FACTORS self) = false ->
  RESULTS self = VStr s ->
  __post_init__ self = Ok (setattr self "RESULTS" (VStr (get_text s))).
Proof.
  unfold normalized. rewrite !andb_true_iff.
  intros [[[Hd _] Hb] Hi] HQ HF HR.
  unfold Detection.__post_init__, coerce_datetime.
  rewrite (for_each_settled _ _ _ _ Hd). cbn [bind].
  unfold HTML_FIELDS, coerce_html, coerce. cbn [for_each].
  change (getattr self "RESULTS") with (Ok (RESULTS self)).
  rewrite HR. cbn [bind soup_text].
  set (self2 := setattr self "RESULTS" (VStr (get_text s))).
  assert (Same : forall g, g <> "RESULTS" -> getattr self2 g = getattr self g)
    by (intros g Hg; now apply getattr_setattr_other).
  unfold coerce_bool, coerce_int.
  rewrite (for_each_settled raw_bool to_bool BOOL_FIELDS self2).
  2:{ rewrite (forallb_settled_ext raw_bool self self2); [exact Hb|].
      intros f Hf. apply Same. intros ->. simpl in Hf. intuition discriminate. }
  cbn [bind].
  rewrite (for_each_settled raw_int to_int INT_FIELDS self2).
  2:{ rewrite (forallb_settled_ext raw_int self self2); [exact Hi|].
      intros f Hf. apply Same. intros ->. simpl in Hf. intuition discriminate. }
  cbn [bind].
  unfold convert_QDS. change (QDS self2) with (QDS self). rewrite HQ. cbn [bind].
  unfold convert_QDS_FACTORS. change (QDS_FACTORS self2) with (QDS_FACTORS self).
  now rewrite HF.
Qed.

(** C9, as the code has it: for a record that the constructor built and
    that holds no score and no factors, [copy] returns a record.  Of the
    keys of [to_dict], FQDN alone is not passed on: the copy holds None
    there.  Every other field, PROTOCOL among them, is the original's,
    RESULTS after one more text extraction. *)
Theorem copy_omits_FQDN_only (kwargs : dict) (self : t) :
  __init__ kwargs = Ok self ->
  truthy (QDS self) = false -> truthy (QDS_FACTORS self) = false ->
  filter (fun k => negb (dict_has k (copy_arguments self))) (dict_keys (to_dict self))
  = [ "FQDN" ]
  /\ exists s c,
       RESULTS self = VStr s
       /\ copy self = Ok c
       /\ c = setattr (setattr self "FQDN" VNone) "RESULTS" (VStr (get_text s))
       /\ FQDN c = VNone
       /\ PROTOCOL c = PROTOCOL self
       /\ forall k, k <> "FQDN" -> k <> "RESULTS" ->
                    dict_get k (to_dict c) = dict_get k (to_dict self).
Proof.
  intros Hinit HQ HF. split; [apply copy_arguments_omit|].
  assert (N : normalized self = true).
  { unfold Detection.__init__ in Hinit.
    destruct (bind_arguments kwargs) as [s0|]; simpl in Hinit; [|discriminate].
    exact (post_init_normalized fromisoformat get_text s0 self Hinit). }
  assert (R : exists s, RESULTS self = VStr s).
  { unfold normalized in N. rewrite !andb_true_iff in N.
    destruct N as [[[_ R] _] _]. destruct (RESULTS self); try discriminate. eauto. }
  destruct R as [s R].
  exists s, (setattr (setattr self "FQDN" VNone) "RESULTS" (VStr (get_text s))).
  split; [exact R|]. split; [|split; [reflexivity|]].
  - unfold Detection.copy, Detection.__init__. rewrite bind_copy_arguments. cbn [bind].
    rewrite (post_init_of_normalized (setattr self "FQDN" VNone) s).
    + now rewrite setattr_comm by discriminate.
    + now rewrite normalized_setattr_FQDN.
    + exact HQ.
    + exact HF.
    + exact R.
  - split; [reflexivity | split; [reflexivity|]].
    intros k Hk Hr. destruct self. unfold to_dict, setattr. cbn.
    repeat match goal with
    | |- context [String.eqb k ?n] =>
        destruct (String.eqb_spec k n); [try congruence; reflexivity|]
    end.
    reflexivity.
Qed.

End Copy.

(** The theorem at [confirmed_finding]. *)
Lemma copy_omits_FQDN_only_witness :
  Detection.__init__ fromisoformat_naive strip_tags confirmed_arguments
  = Ok confirmed_finding
  /\ truthy (Detection.QDS confirmed_finding) = false
  /\ truthy (Detection.QDS_FACTORS confirmed_finding) = false
  /\ Detection.copy fromisoformat_naive strip_tags confirmed_finding
     = Ok (Detection.setattr confirmed_finding "FQDN" VNone).
Proof.
  repeat (split; [reflexivity|]).
  destruct (copy_omits_FQDN_only fromisoformat_naive strip_tags
              confirmed_arguments confirmed_finding eq_refl eq_refl eq_refl)
    as [_ [s [c [R [C [E _]]]]]].
  rewrite C, E. injection R as <-. reflexivity.
Defined.

(** C9, as the claim has it, fails.  The keys of [to_dict] that [copy]
    leaves out are not several: FQDN alone, and PROTOCOL is passed on.
    And [copy] does not return for every record: on one that holds its
    list of factors, the constructor subscripts that list by a string. *)
Lemma copy_leaves_out_one_field :
  filter (fun k => negb (dict_has k (Detection.copy_arguments confirmed_finding)))
         (dict_keys (Detection.to_dict confirmed_finding)) = [ "FQDN" ]
  /\ dict_has "PROTOCOL" (Detection.copy_arguments confirmed_finding) = true
  /\ Detection.__init__ fromisoformat_naive strip_tags factored_arguments
     = Ok factored_finding
  /\ Detection.copy fromisoformat_naive strip_tags factored_finding
     = Err (TypeError BadIndex).
Proof. repeat split. Qed.

(** * Calls and subscripts *)

Lemma spread_fresh (k : string) (kwargs : dict) :
  dict_has k kwargs = false -> spread [ k ] kwargs = Ok kwargs.
Proof.
  intros Hk. unfold spread.
  destruct (filter _ (dict_keys kwargs)) as [|k' ks] eqn:F; [reflexivity|].
  assert (X : In k' (filter (fun k0 => mem k0 [ k ]) (dict_keys kwargs)))
    by (rewrite F; now left).
  apply filter_In in X. destruct X as [Hin E].
  unfold mem in E. simpl in E. rewrite orb_false_r in E.
  apply String.eqb_eq in E. subst k'.
  assert (Y : dict_has k kwargs = true).
  { unfold dict_has, mem. apply existsb_exists.
    exists k. split; [exact Hin | apply String.eqb_refl]. }
  congruence.
Qed.

Lemma dict_has_set_other (k k' : string) (v : value) (d : dict) :
  k' <> k -> dict_has k' (dict_set k v d) = dict_has k' d.
Proof.
  intros Hne. pose proof (dict_get_set_other k k' v d Hne) as G.
  destruct (dict_has k' d) eqn:H.
  - apply dict_has_get in H. destruct H as [x H].
    apply dict_has_get. exists x. congruence.
  - apply dict_has_false in H. apply dict_has_false. congruence.
Qed.

Lemma subscripts_app (v : value) (p q : list string) :
  subscripts v (p ++ q) = (x <- subscripts v p ;; subscripts x q).
Proof.
  revert v. induction p as [|k p IH]; intros v; simpl; [reflexivity|].
  destruct (subscript v k); simpl; [apply IH | reflexivity].
Qed.

(** * One element, bare or in a list *)

Section SingleOrList.

Import Detection.

(** A turn of a loop on [f] does not read or write another field [g]. *)
Lemma coerce_setattr_other guard conv (self : t) (f g : string) (w : value) :
  f <> g ->
  coerce guard conv (setattr self g w) f
  = (s <- coerce guard conv self f ;; Ok (setattr s g w)).
Proof.
  intros Hne. unfold coerce. rewrite getattr_setattr_other by exact Hne.
  destruct (getattr self f) as [v|e]; simpl; [|reflexivity].
  destruct (guard v); simpl; [|reflexivity].
  destruct (conv v) as [v'|e]; simpl; [|reflexivity].
  now rewrite setattr_comm.
Qed.

Lemma for_each_setattr_other guard conv (names : list string) (g : string) (w : value) :
  ~ In g names ->
  forall self,
    for_each (coerce guard conv) names (setattr self g w)
    = (s <- for_each (coerce guard conv) names self ;; Ok (setattr s g w)).
Proof.
  induction names as [|f names IH]; intros Hnot self; simpl; [reflexivity|].
  rewrite coerce_setattr_other by (intros ->; apply Hnot; now left).
  destruct (coerce guard conv self f) as [s1|e]; simpl; [|reflexivity].
  apply IH. intros X. apply Hnot. now right.
Qed.

Lemma convert_QDS_setattr_QDS_FACTORS (self : t) (w : value) :
  convert_QDS (setattr self "QDS_FACTORS" w)
  = (s <- convert_QDS self ;; Ok (setattr s "QDS_FACTORS" w)).
Proof.
  unfold convert_QDS. change (QDS (setattr self "QDS_FACTORS" w)) with (QDS self).
  destruct (truthy (QDS self)); [|reflexivity].
  destruct (subscript (QDS self) "@severity"); simpl; [|reflexivity].
  destruct (subscript (QDS self) "#text") as [x|]; simpl; [|reflexivity].
  destruct (py_int x); simpl; [|reflexivity].
  now rewrite setattr_comm by discriminate.
Qed.

(** Setting a key that [P] rejects leaves the keys that [P] accepts. *)
Lemma filter_keys_set (P : string -> bool) (k : string) (v : value) (d : dict) :
  P k = false -> filter P (dict_keys (dict_set k v d)) = filter P (dict_keys d).
Proof.
  intros Hk. unfold dict_keys.
  induction d as [|[k' v'] d IH]; simpl.
  - now rewrite Hk.
  - destruct (String.eqb_spec k k') as [->|Hne]; simpl.
    + reflexivity.
    + now rewrite IH.
Qed.

Lemma argument_set (k name : string) (w : value) (kwargs : dict) :
  argument (dict_set k w kwargs) name
  = if String.eqb name k then w else argument kwargs name.
Proof.
  unfold argument. destruct (String.eqb_spec name k) as [->|Hne].
  - now rewrite dict_get_set_same.
  - now rewrite dict_get_set_other.
Qed.

(** Binding the keyword arguments with QDS_FACTORS set binds the other
    fields as before. *)
Lemma bind_arguments_set_QDS_FACTORS (w : value) (kwargs : dict) :
  bind_arguments (dict_set "QDS_FACTORS" w kwargs)
  = (s <- bind_arguments kwargs ;; Ok (setattr s "QDS_FACTORS" w)).
Proof.
  unfold bind_arguments.
  rewrite filter_keys_set by reflexivity.
  destruct (filter (fun k => negb (declared k)) (dict_keys kwargs)); [|reflexivity].
  assert (R : filter (fun n => negb (dict_has n (dict_set "QDS_FACTORS" w kwargs)))
                required_arguments
              = filter (fun n => negb (dict_has n kwargs)) required_arguments).
  { apply filter_ext_in. intros n Hn.
    rewrite dict_has_set_other; [reflexivity|].
    intros ->. revert Hn. vm_compute. intuition discriminate. }
  rewrite R. clear R.
  destruct (filter (fun n => negb (dict_has n kwargs)) required_arguments); [|reflexivity].
  cbv zeta. cbn [bind]. rewrite !argument_set. reflexivity.
Qed.

(** What [convert_QDS_FACTORS] changes is QDS_FACTORS. *)
Lemma convert_QDS_FACTORS_overwritten (self self' : t) (w : value) :
  convert_QDS_FACTORS self = Ok self' ->
  setattr self' "QDS_FACTORS" w = setattr self "QDS_FACTORS" w.
Proof.
  unfold convert_QDS_FACTORS. intros H.
  destruct (truthy (QDS_FACTORS self)); [|now injection H as <-].
  destruct (subscript (QDS_FACTORS self) "QDS_FACTOR") as [node|];
    simpl in H; [|discriminate].
  assert (One : forall x, (f <- QDSFactor_of x ;;
                           Ok (setattr self "QDS_FACTORS" (VList [ f ]))) = Ok self' ->
                          setattr self' "QDS_FACTORS" w = setattr self "QDS_FACTORS" w).
  { intros x Hx. destruct (QDSFactor_of x); simpl in Hx; [|discriminate].
    injection Hx as <-. apply setattr_setattr. }
  destruct node; try exact (One _ H).
  destruct (mapM QDSFactor_of items); simpl in H; [|discriminate].
  injection H as <-. apply setattr_setattr.
Qed.

Variable fromisoformat : string -> option datetime.
Variable get_text : string -> string.

Local Abbreviation __post_init__ := (Detection.__post_init__ fromisoformat get_text).
Local Abbreviation __init__ := (Detection.__init__ fromisoformat get_text).

(** [__post_init__] runs its first five steps as if QDS_FACTORS were not
    there, then converts QDS_FACTORS. *)
Lemma post_init_setattr_QDS_FACTORS (self : t) (w : value) :
  __post_init__ (setattr self "QDS_FACTORS" w)
  = (s <- for_each (coerce_datetime fromisoformat) DATETIME_FIELDS self ;;
     s <- for_each (coerce_html get_text) HTML_FIELDS s ;;
     s <- for_each coerce_bool BOOL_FIELDS s ;;
     s <- for_each coerce_int INT_FIELDS s ;;
     s <- convert_QDS s ;;
     convert_QDS_FACTORS (setattr s "QDS_FACTORS" w)).
Proof.
  unfold Detection.__post_init__, coerce_datetime, coerce_html, coerce_bool, coerce_int.
  rewrite for_each_setattr_other by (simpl; intuition discriminate).
  destruct (for_each _ DATETIME_FIELDS self) as [s1|]; cbn [bind]; [|reflexivity].
  rewrite for_each_setattr_other by (simpl; intuition discriminate).
  destruct (for_each _ HTML_FIELDS s1) as [s2|]; cbn [bind]; [|reflexivity].
  rewrite for_each_setattr_other by (simpl; intuition discriminate).
  destruct (for_each _ BOOL_FIELDS s2) as [s3|]; cbn [bind]; [|reflexivity].
  rewrite for_each_setattr_other by (simpl; intuition discriminate).
  destruct (for_each _ INT_FIELDS s3) as [s4|]; cbn [bind]; [|reflexivity].
  rewrite convert_QDS_setattr_QDS_FACTORS.
  destruct (convert_QDS s4) as [s5|]; reflexivity.
Qed.

(** The constructor with QDS_FACTORS set to [w], from the record it
    builds without: the other fields come out as before, and [w] is
    converted in the place of QDS_FACTORS. *)
Lemma init_set_QDS_FACTORS (arguments : dict) (built : t) (w : value) :
  __init__ arguments = Ok built ->
  __init__ (dict_set "QDS_FACTORS" w arguments)
  = convert_QDS_FACTORS (setattr built "QDS_FACTORS" w).
Proof.
  unfold Detection.__init__. rewrite bind_arguments_set_QDS_FACTORS.
  destruct (bind_arguments arguments) as [s0|]; cbn [bind]; [|discriminate].
  intros H.
  assert (E : s0 = setattr s0 "QDS_FACTORS" (QDS_FACTORS s0)) by (destruct s0; reflexivity).
  rewrite E in H. rewrite post_init_setattr_QDS_FACTORS in H |- *.
  destruct (for_each _ DATETIME_FIELDS s0) as [s1|]; cbn [bind] in *; [|discriminate].
  destruct (for_each _ HTML_FIELDS s1) as [s2|]; cbn [bind] in *; [|discriminate].
  destruct (for_each _ BOOL_FIELDS s2) as [s3|]; cbn [bind] in *; [|discriminate].
  destruct (for_each _ INT_FIELDS s3) as [s4|]; cbn [bind] in *; [|discriminate].
  destruct (convert_QDS s4) as [s5|]; cbn [bind] in *; [|discriminate].
  rewrite (convert_QDS_FACTORS_overwritten _ _ w H), setattr_setattr.
  reflexivity.
Qed.

(** A lone factor and the one-element list of it convert alike. *)
Lemma convert_QDS_FACTORS_single (self : t) (factor : dict) :
  convert_QDS_FACTORS (setattr self "QDS_FACTORS" (VDict [ ("QDS_FACTOR", VDict factor) ]))
  = convert_QDS_FACTORS
      (setattr self "QDS_FACTORS" (VDict [ ("QDS_FACTOR", VList [ VDict factor ]) ])).
Proof.
  unfold convert_QDS_FACTORS. cbn. unfold QDSFactor_of, subscript.
  destruct (dict_get "@name" factor); cbn; [|reflexivity].
  destruct (dict_get "#text" factor); cbn; [|reflexivity].
  now rewrite !setattr_setattr.
Qed.

Variable BasicAuth : Type.
Variable call_api : BasicAuth -> request -> result Response.
Variable xml_parser : string -> result value.
Variable VMDRReport : Type.
Variable VMDRReport_from_dict : value -> result VMDRReport.

Local Abbreviation get_report_list :=
  (Reports.get_report_list BasicAuth call_api xml_parser VMDRReport VMDRReport_from_dict).
Local Abbreviation manage_reports := (Reports.manage_reports BasicAuth call_api).

(** C6: a list-typed node holding one element yields the same records
    whether the element comes bare or in a one-element list.  Inside a
    record: from keyword arguments that the constructor accepts, the
    constructor with QDS_FACTORS set to the list of factors A, B returns
    the record with the two factor records in that order; with
    QDS_FACTORS set to a lone factor it returns the record with the
    one-element list of that factor record; a lone QDS_FACTOR mapping and
    the one-element list of it give the same result, in the constructor
    and in [__post_init__] on any record.  At the top of a list
    operation: [get_report_list] returns the one record of a REPORT node,
    bare or in a one-element list. *)
Theorem single_element_bare_or_listed
    (arguments : dict) (built self : t) (factor : dict)
    (auth : BasicAuth) (kwargs : dict) (response : Response) (data : value)
    (report : dict) :
  __init__ arguments = Ok built ->
  dict_has "action" kwargs = false ->
  manage_reports auth "list" kwargs = Ok response ->
  xml_parser (text response) = Ok data ->
  subscripts data [ "REPORT_LIST_OUTPUT"; "RESPONSE"; "REPORT_LIST"; "REPORT" ]
    = Ok (VDict report)
  \/ subscripts data [ "REPORT_LIST_OUTPUT"; "RESPONSE"; "REPORT_LIST"; "REPORT" ]
    = Ok (VList [ VDict report ]) ->
  __init__ (dict_set "QDS_FACTORS" scenario_C_list arguments)
  = Ok (setattr built "QDS_FACTORS"
          (VList [ VQDSFactor (VStr "A") (VStr "1");
                   VQDSFactor (VStr "B") (VStr "2") ]))
  /\ __init__ (dict_set "QDS_FACTORS" scenario_C_single arguments)
     = Ok (setattr built "QDS_FACTORS" (VList [ VQDSFactor (VStr "A") (VStr "1") ]))
  /\ (forall name val,
        dict_get "@name" factor = Some name -> dict_get "#text" factor = Some val ->
        __init__ (dict_set "QDS_FACTORS" (VDict [ ("QDS_FACTOR", VDict factor) ]) arguments)
        = Ok (setattr built "QDS_FACTORS" (VList [ VQDSFactor name val ])))
  /\ __init__ (dict_set "QDS_FACTORS" (VDict [ ("QDS_FACTOR", VDict factor) ]) arguments)
     = __init__ (dict_set "QDS_FACTORS"
                   (VDict [ ("QDS_FACTOR", VList [ VDict factor ]) ]) arguments)
  /\ __post_init__ (setattr self "QDS_FACTORS" (VDict [ ("QDS_FACTOR", VDict factor) ]))
     = __post_init__
         (setattr self "QDS_FACTORS" (VDict [ ("QDS_FACTOR", VList [ VDict factor ]) ]))
  /\ get_report_list auth kwargs
     = (r <- VMDRReport_from_dict (VDict report) ;; Ok [ r ]).
Proof.
  intros Hinit Hact Hcall Hparse Hnode.
  split; [|split; [|split; [|split; [|split]]]].
  - rewrite (init_set_QDS_FACTORS arguments built _ Hinit). reflexivity.
  - rewrite (init_set_QDS_FACTORS arguments built _ Hinit). reflexivity.
  - intros name val Hname Hval.
    rewrite (init_set_QDS_FACTORS arguments built _ Hinit).
    unfold convert_QDS_FACTORS. cbn. unfold QDSFactor_of, subscript.
    rewrite Hname, Hval. cbn. now rewrite setattr_setattr.
  - rewrite !(init_set_QDS_FACTORS arguments built _ Hinit).
    apply convert_QDS_FACTORS_single.
  - rewrite !post_init_setattr_QDS_FACTORS.
    repeat match goal with
    | |- (s <- ?c ;; _) = _ => destruct c; cbn [bind]; [|reflexivity]
    end.
    apply convert_QDS_FACTORS_single.
  - unfold Reports.get_report_list.
    rewrite (spread_fresh "action" kwargs Hact). cbn [bind].
    rewrite Hcall. cbn [bind]. rewrite Hparse. cbn [bind].
    unfold Reports.report_list.
    destruct Hnode as [-> | ->]; cbn;
      destruct (VMDRReport_from_dict (VDict report)); reflexivity.
Qed.

End SingleOrList.

(** The theorem at the arguments of [confirmed_finding] with the factors
    of scenario C, and at the list of one report, bare and wrapped. *)
Lemma single_element_bare_or_listed_witness :
  Detection.__init__ fromisoformat_naive strip_tags two_factor_arguments
  = Ok two_factor_finding
  /\ Detection.__init__ fromisoformat_naive strip_tags factored_arguments
     = Ok factored_finding
  /\ Reports.get_report_list unit (canned_transport "<bare/>")
       (canned_parser [ ("<bare/>", report_list_output (VDict one_report)) ])
       value as_parsed tt [ ("state", VStr "Finished") ]
     = Ok [ VDict one_report ]
  /\ Reports.get_report_list unit (canned_transport "<listed/>")
       (canned_parser [ ("<listed/>", report_list_output (VList [ VDict one_report ])) ])
       value as_parsed tt [ ("state", VStr "Finished") ]
     = Ok [ VDict one_report ].
Proof.
  pose proof
    (single_element_bare_or_listed fromisoformat_naive strip_tags
       unit (canned_transport "<bare/>")
       (canned_parser [ ("<bare/>", report_list_output (VDict one_report)) ])
       value as_parsed confirmed_arguments confirmed_finding confirmed_finding
       [ ("@name", VStr "A"); ("#text", VStr "1") ]
       tt [ ("state", VStr "Finished") ] {| text := "<bare/>" |}
       (report_list_output (VDict one_report)) one_report
       eq_refl eq_refl eq_refl eq_refl (or_introl eq_refl))
    as [Two [One [_ [_ [_ Bare]]]]].
  pose proof
    (single_element_bare_or_listed fromisoformat_naive strip_tags
       unit (canned_transport "<listed/>")
       (canned_parser [ ("<listed/>", report_list_output (VList [ VDict one_report ])) ])
       value as_parsed confirmed_arguments confirmed_finding confirmed_finding
       [ ("@name", VStr "A"); ("#text", VStr "1") ]
       tt [ ("state", VStr "Finished") ] {| text := "<listed/>" |}
       (report_list_output (VList [ VDict one_report ])) one_report
       eq_refl eq_refl eq_refl eq_refl (or_intror eq_refl))
    as [_ [_ [_ [_ [_ Listed]]]]].
  split; [exact Two | split; [exact One | split; [exact Bare | exact Listed]]].
Defined.

(** * The report functions *)

Section ReportFunctions.

Variable BasicAuth : Type.
Variable call_api : BasicAuth -> request -> result Response.
Variable xml_parser : string -> result value.
Variable VMDRReport : Type.
Variable VMDRReport_from_dict : value -> result VMDRReport.
Variable ReportTemplate : Type.
Variable ReportTemplate_from_dict : value -> result ReportTemplate.

Local Abbreviation manage_reports := (Reports.manage_reports BasicAuth call_api).
Local Abbreviation get_report_list :=
  (Reports.get_report_list BasicAuth call_api xml_parser VMDRReport VMDRReport_from_dict).
Local Abbreviation get_template_list :=
  (Reports.get_template_list BasicAuth call_api xml_parser
     ReportTemplate ReportTemplate_from_dict).
Local Abbreviation launch_report := (Reports.launch_report BasicAuth call_api xml_parser).

(** What [manage_reports] sends: the caller's options with "action" set
    to the action and "echo_request" set to False, every other option as
    the caller gave it. *)
Lemma parameter_bag (action : string) (kwargs : dict) :
  let bag := dict_set "echo_request" (VBool false)
               (dict_set "action" (VStr action) kwargs) in
  dict_get "action" bag = Some (VStr action)
  /\ dict_get "echo_request" bag = Some (VBool false)
  /\ forall k, k <> "action" -> k <> "echo_request" ->
               dict_get k bag = dict_get k kwargs.
Proof.
  cbv zeta. split; [|split].
  - rewrite dict_get_set_other by discriminate. apply dict_get_set_same.
  - apply dict_get_set_same.
  - intros k Ha He. now rewrite !dict_get_set_other by congruence.
Qed.

(** C5, as the code has it: "list" goes to (vmdr, get_report_list) with
    the options as query parameters, "launch" to (vmdr, launch_report)
    with the options as body payload, in both cases with "action" set to
    the action and "echo_request" to False among the caller's options;
    any other action, "cancel", "fetch" and "delete" among them, raises
    [NotImplementedError] and nothing is sent. *)
Theorem manage_reports_dispatch (auth : BasicAuth) (action : string) (kwargs : dict) :
  action <> "list" -> action <> "launch" ->
  (exists bag,
      manage_reports auth "list" kwargs
      = call_api auth {| module := "vmdr"; endpoint := "get_report_list";
                         params := Some bag; payload := None;
                         headers := Some Reports.sdk_headers |}
      /\ dict_get "action" bag = Some (VStr "list")
      /\ dict_get "echo_request" bag = Some (VBool false)
      /\ forall k, k <> "action" -> k <> "echo_request" ->
                   dict_get k bag = dict_get k kwargs)
  /\ (exists bag,
        manage_reports auth "launch" kwargs
        = call_api auth {| module := "vmdr"; endpoint := "launch_report";
                           params := None; payload := Some bag;
                           headers := Some Reports.sdk_headers |}
        /\ dict_get "action" bag = Some (VStr "launch")
        /\ dict_get "echo_request" bag = Some (VBool false)
        /\ forall k, k <> "action" -> k <> "echo_request" ->
                     dict_get k bag = dict_get k kwargs)
  /\ manage_reports auth action kwargs
     = Err (NotImplementedError ("Action " ++ action ++ " is not implemented yet.")%string).
Proof.
  intros Hlist Hlaunch. split; [|split].
  - eexists. split; [reflexivity|]. exact (parameter_bag "list" kwargs).
  - eexists. split; [reflexivity|]. exact (parameter_bag "launch" kwargs).
  - unfold Reports.manage_reports.
    destruct (String.eqb_spec action "list"); [contradiction|].
    destruct (String.eqb_spec action "launch"); [contradiction|].
    reflexivity.
Qed.

(** C1 on the code: when the parsed response has no REPORT_LIST_OUTPUT
    key, as with an envelope that holds SIMPLE_RETURN only,
    [get_report_list] raises the [KeyError] of its first subscript; the
    envelope's text is not read. *)
Theorem get_report_list_without_output
    (auth : BasicAuth) (kwargs : dict) (response : Response) (data : dict) :
  dict_has "action" kwargs = false ->
  manage_reports auth "list" kwargs = Ok response ->
  xml_parser (text response) = Ok (VDict data) ->
  dict_has "REPORT_LIST_OUTPUT" data = false ->
  get_report_list auth kwargs = Err (KeyError "REPORT_LIST_OUTPUT").
Proof.
  intros Hact Hcall Hparse Hout. unfold Reports.get_report_list.
  rewrite (spread_fresh "action" kwargs Hact). cbn [bind].
  rewrite Hcall. cbn [bind]. rewrite Hparse. cbn [bind].
  unfold Reports.report_list. cbn.
  apply dict_has_false in Hout. now rewrite Hout.
Qed.

(** The sibling [get_template_list] does read the envelope: a response
    with a SIMPLE_RETURN key raises [QualysAPIError] with its text. *)
Lemma get_template_list_soft_failure
    (auth : BasicAuth) (response : Response) (data : dict) (message : value) :
  call_api auth {| module := "vmdr"; endpoint := "get_template_list";
                   params := None; payload := None;
                   headers := Some Reports.sdk_headers |} = Ok response ->
  xml_parser (text response) = Ok (VDict data) ->
  subscripts (VDict data) [ "SIMPLE_RETURN"; "RESPONSE"; "TEXT" ] = Ok message ->
  get_template_list auth = Err (QualysAPIError message).
Proof.
  intros Hcall Hparse Htext. unfold Reports.get_template_list.
  rewrite Hcall. cbn [bind]. rewrite Hparse. cbn [bind contains].
  assert (H : dict_has "SIMPLE_RETURN" data = true).
  { apply dict_has_get. simpl in Htext.
    destruct (dict_get "SIMPLE_RETURN" data); [eauto | discriminate]. }
  rewrite H. cbn [bind]. now rewrite Htext.
Qed.

(** C7, as the code has it: with the response parsed to an envelope
    SIMPLE_RETURN/RESPONSE, [launch_report] returns the integer read from
    ITEM_LIST/ITEM/VALUE when that path is there and holds what [int]
    reads; when a key of the path is missing from its mapping and the
    envelope has a TEXT, it raises [QualysAPIError] with that TEXT. *)
Theorem launch_report_id_or_soft_failure
    (auth : BasicAuth) (template_id : value) (kwargs : dict)
    (response : Response) (data envelope : value) :
  dict_has "action" kwargs = false ->
  manage_reports auth "launch" (dict_set "template_id" template_id kwargs)
    = Ok response ->
  xml_parser (text response) = Ok data ->
  subscripts data [ "SIMPLE_RETURN"; "RESPONSE" ] = Ok envelope ->
  (forall v id,
      subscripts envelope [ "ITEM_LIST"; "ITEM"; "VALUE" ] = Ok v ->
      py_int v = Ok id ->
      launch_report auth template_id kwargs = Ok id)
  /\ (forall k message,
        subscripts envelope [ "ITEM_LIST"; "ITEM"; "VALUE" ] = Err (KeyError k) ->
        subscript envelope "TEXT" = Ok message ->
        launch_report auth template_id kwargs = Err (QualysAPIError message)).
Proof.
  intros Hact Hcall Hparse Henv.
  assert (Start : launch_report auth template_id kwargs = Reports.report_id data).
  { unfold Reports.launch_report.
    rewrite spread_fresh
      by (rewrite dict_has_set_other by discriminate; exact Hact).
    cbn [bind]. rewrite Hcall. cbn [bind]. now rewrite Hparse. }
  assert (Path : forall q,
             subscripts data ([ "SIMPLE_RETURN"; "RESPONSE" ] ++ q)
             = subscripts envelope q)
    by (intros q; now rewrite subscripts_app, Henv).
  rewrite Start. unfold Reports.report_id.
  change [ "SIMPLE_RETURN"; "RESPONSE"; "ITEM_LIST"; "ITEM"; "VALUE" ]
    with ([ "SIMPLE_RETURN"; "RESPONSE" ] ++ [ "ITEM_LIST"; "ITEM"; "VALUE" ]).
  change [ "SIMPLE_RETURN"; "RESPONSE"; "TEXT" ]
    with ([ "SIMPLE_RETURN"; "RESPONSE" ] ++ [ "TEXT" ]).
  rewrite !Path. split.
  - intros v id Hv Hid. rewrite Hv. cbn [bind]. now rewrite Hid.
  - intros k message Hk Htext. rewrite Hk. cbn. now rewrite Htext.
Qed.

(** C8 on the code: the payload of a launch holds "hide_header" exactly
    as the caller gave it, or not at all; what is forced is
    "echo_request", to False. *)
Theorem launch_report_passes_hide_header
    (auth : BasicAuth) (template_id : value) (kwargs : dict) :
  dict_has "action" kwargs = false ->
  exists bag,
    launch_report auth template_id kwargs
    = (response <- call_api auth {| module := "vmdr"; endpoint := "launch_report";
                                    params := None; payload := Some bag;
                                    headers := Some Reports.sdk_headers |} ;;
       data <- xml_parser (text response) ;;
       Reports.report_id data)
    /\ dict_get "hide_header" bag = dict_get "hide_header" kwargs
    /\ dict_get "echo_request" bag = Some (VBool false).
Proof.
  intros Hact. eexists. split; [|split].
  - unfold Reports.launch_report.
    rewrite spread_fresh
      by (rewrite dict_has_set_other by discriminate; exact Hact).
    reflexivity.
  - now rewrite !dict_get_set_other by discriminate.
  - apply dict_get_set_same.
Qed.

End ReportFunctions.

(** The theorem at "cancel". *)
Lemma manage_reports_dispatch_witness :
  "cancel" <> "list" /\ "cancel" <> "launch"
  /\ Reports.manage_reports unit (canned_transport "<ok/>") tt "cancel"
       [ ("id", VStr "42") ]
     = Err (NotImplementedError "Action cancel is not implemented yet.").
Proof.
  assert (H1 : "cancel" <> "list") by discriminate.
  assert (H2 : "cancel" <> "launch") by discriminate.
  split; [exact H1 | split; [exact H2|]].
  exact (proj2 (proj2 (manage_reports_dispatch unit (canned_transport "<ok/>") tt
                         "cancel" [ ("id", VStr "42") ] H1 H2))).
Defined.

(** C5, as the claim has it, fails: of the five actions, "cancel",
    "fetch" and "delete" reach no endpoint.  Over a transport that would
    answer, each of them raises [NotImplementedError]. *)
Lemma cancel_fetch_delete_not_dispatched :
  Reports.manage_reports unit (canned_transport "<ok/>") tt "cancel" [ ("id", VStr "42") ]
  = Err (NotImplementedError "Action cancel is not implemented yet.")
  /\ Reports.manage_reports unit (canned_transport "<ok/>") tt "fetch" [ ("id", VStr "42") ]
     = Err (NotImplementedError "Action fetch is not implemented yet.")
  /\ Reports.manage_reports unit (canned_transport "<ok/>") tt "delete" [ ("id", VStr "42") ]
     = Err (NotImplementedError "Action delete is not implemented yet.")
  /\ Reports.manage_reports unit (canned_transport "<ok/>") tt "list" [ ("id", VStr "42") ]
     = Ok {| text := "<ok/>" |}.
Proof. repeat split. Qed.

(** The theorem at scenario B, next to what [get_template_list] does
    with the same response. *)
Lemma get_report_list_without_output_witness :
  Reports.get_report_list unit (canned_transport "<soft/>")
    (canned_parser [ ("<soft/>", scenario_B) ]) value as_parsed tt []
  = Err (KeyError "REPORT_LIST_OUTPUT")
  /\ Reports.get_template_list unit (canned_transport "<soft/>")
       (canned_parser [ ("<soft/>", scenario_B) ]) value as_parsed tt
     = Err (QualysAPIError (VStr "No reports matched your search criteria.")).
Proof.
  split.
  - exact (get_report_list_without_output unit (canned_transport "<soft/>")
             (canned_parser [ ("<soft/>", scenario_B) ]) value as_parsed
             tt [] {| text := "<soft/>" |}
             [ ("SIMPLE_RETURN",
                VDict [ ("RESPONSE",
                         VDict [ ("DATETIME", VStr "2024-03-01T10:00:00Z");
                                 ("TEXT", VStr "No reports matched your search criteria.") ]) ]) ]
             eq_refl eq_refl eq_refl eq_refl).
  - reflexivity.
Defined.

(** The theorem at a launch that is answered with ID 1665 and at one
    that is refused. *)
Lemma launch_report_id_or_soft_failure_witness :
  Reports.launch_report unit (canned_transport "<launched/>")
    (canned_parser [ ("<launched/>", launched) ]) tt (VStr "1") [ ("report_title", VStr "Weekly") ]
  = Ok 1665
  /\ Reports.launch_report unit (canned_transport "<refused/>")
       (canned_parser [ ("<refused/>", refused) ]) tt (VStr "x") [ ("report_title", VStr "Weekly") ]
     = Err (QualysAPIError (VStr "Invalid template_id")).
Proof.
  split.
  - refine (proj1 (launch_report_id_or_soft_failure unit (canned_transport "<launched/>")
              (canned_parser [ ("<launched/>", launched) ]) tt (VStr "1")
              [ ("report_title", VStr "Weekly") ] {| text := "<launched/>" |} launched _
              eq_refl eq_refl eq_refl eq_refl) (VStr "1665") 1665 eq_refl eq_refl).
  - refine (proj2 (launch_report_id_or_soft_failure unit (canned_transport "<refused/>")
              (canned_parser [ ("<refused/>", refused) ]) tt (VStr "x")
              [ ("report_title", VStr "Weekly") ] {| text := "<refused/>" |} refused _
              eq_refl eq_refl eq_refl eq_refl) "ITEM_LIST" (VStr "Invalid template_id")
              eq_refl eq_refl).
Defined.

(** C7, as the claim has it, fails: an envelope can lack the identifier
    without a key of the path missing, and then the error is not the
    soft failure.  With an empty ITEM_LIST the call raises [TypeError]
    although the envelope has a TEXT; with a VALUE that is no integer it
    raises the [ValueError] of [int]; with neither identifier nor TEXT it
    raises the [KeyError] of TEXT. *)
Lemma absent_identifier_not_soft_failure :
  subscripts launched_empty [ "SIMPLE_RETURN"; "RESPONSE"; "TEXT" ]
  = Ok (VStr "New report launched")
  /\ Reports.launch_report unit (canned_transport "<empty/>")
       (canned_parser [ ("<empty/>", launched_empty) ]) tt (VStr "1") []
     = Err (TypeError NotSubscriptable)
  /\ Reports.launch_report unit (canned_transport "<bad/>")
       (canned_parser [ ("<bad/>", launched_badly) ]) tt (VStr "1") []
     = Err (ValueError (InvalidIntLiteral "n/a"))
  /\ Reports.launch_report unit (canned_transport "<silent/>")
       (canned_parser [ ("<silent/>", launched_silent) ]) tt (VStr "1") []
     = Err (KeyError "TEXT").
Proof.
  split; [reflexivity|]. split; [reflexivity|]. split; reflexivity.
Qed.

(** The theorem at a caller who asks for hide_header=False: False is
    what the payload holds. *)
Lemma launch_report_passes_hide_header_witness :
  exists bag,
    Reports.launch_report unit (canned_transport "<launched/>")
      (canned_parser [ ("<launched/>", launched) ]) tt (VStr "1")
      [ ("hide_header", VBool false) ]
    = (response <- canned_transport "<launched/>" tt
                     {| module := "vmdr"; endpoint := "launch_report";
                        params := None; payload := Some bag;
                        headers := Some Reports.sdk_headers |} ;;
       data <- canned_parser [ ("<launched/>", launched) ] (text response) ;;
       Reports.report_id data)
    /\ dict_get "hide_header" bag = Some (VBool false).
Proof.
  destruct (launch_report_passes_hide_header unit (canned_transport "<launched/>")
              (canned_parser [ ("<launched/>", launched) ]) tt (VStr "1")
              [ ("hide_header", VBool false) ] eq_refl) as [bag [E [H _]]].
  exists bag. split; [exact E | exact H].
Defined.

(** * The fields of a constructed record *)

Section ConstructedFields.

Import Detection.

(** After a loop over distinct fields, a field of the loop holds its
    old value, converted when the guard fired. *)
Lemma for_each_getattr_in guard conv (names : list string) (f : string) :
  NoDup names -> forallb declared names = true -> In f names ->
  forall self self' v,
    for_each (coerce guard conv) names self = Ok self' ->
    getattr self f = Ok v ->
    getattr self' f = (if guard v then conv v else Ok v).
Proof.
  intros Hnd. induction Hnd as [|h names Hnot _ IH];
    intros Hdecl Hin self self' v H G; simpl in *; [destruct Hin|].
  apply andb_true_iff in Hdecl. destruct Hdecl as [Hh Hrest].
  destruct (coerce guard conv self h) as [s1|e] eqn:E; simpl in H; [|discriminate].
  destruct Hin as [->|Hin].
  - rewrite (for_each_getattr_other guard conv names f Hnot s1 self' H).
    unfold coerce in E. rewrite G in E. simpl in E.
    destruct (guard v).
    + destruct (conv v) as [v'|e]; simpl in E; [|discriminate].
      injection E as <-. now apply getattr_setattr_same.
    + now injection E as <-.
  - apply (IH Hrest Hin s1 self' v H).
    rewrite (coerce_getattr_other guard conv self s1 h f E); [exact G|].
    intros ->. contradiction.
Qed.

Variable fromisoformat : string -> option datetime.
Variable get_text : string -> string.

Local Abbreviation __post_init__ := (Detection.__post_init__ fromisoformat get_text).
Local Abbreviation __init__ := (Detection.__init__ fromisoformat get_text).
Local Abbreviation from_dict := (Detection.from_dict fromisoformat get_text).

(** The six steps of a [__post_init__] that returns. *)
Lemma post_init_steps (self self' : t) :
  __post_init__ self = Ok self' ->
  exists s1 s2 s3 s4 s5,
    for_each (coerce_datetime fromisoformat) DATETIME_FIELDS self = Ok s1
    /\ for_each (coerce_html get_text) HTML_FIELDS s1 = Ok s2
    /\ for_each coerce_bool BOOL_FIELDS s2 = Ok s3
    /\ for_each coerce_int INT_FIELDS s3 = Ok s4
    /\ convert_QDS s4 = Ok s5
    /\ convert_QDS_FACTORS s5 = Ok self'.
Proof.
  unfold Detection.__post_init__. intros H.
  destruct (for_each (coerce_datetime fromisoformat) DATETIME_FIELDS self)
    as [s1|] eqn:E1; cbn [bind] in H; [|discriminate].
  destruct (for_each (coerce_html get_text) HTML_FIELDS s1)
    as [s2|] eqn:E2; cbn [bind] in H; [|discriminate].
  destruct (for_each coerce_bool BOOL_FIELDS s2)
    as [s3|] eqn:E3; cbn [bind] in H; [|discriminate].
  destruct (for_each coerce_int INT_FIELDS s3)
    as [s4|] eqn:E4; cbn [bind] in H; [|discriminate].
  destruct (convert_QDS s4) as [s5|] eqn:E5; cbn [bind] in H; [|discriminate].
  exists s1, s2, s3, s4, s5. repeat split; assumption.
Qed.

(** What [__post_init__] leaves in a field, from what it found there:
    each field is converted by its own step and ignored by the others. *)
Lemma post_init_field (self self' : t) (f : string) (v : value) :
  __post_init__ self = Ok self' ->
  getattr self f = Ok v ->
  (In f DATETIME_FIELDS ->
   getattr self' f = (if raw_datetime v then to_datetime fromisoformat v else Ok v))
  /\ (In f HTML_FIELDS -> getattr self' f = soup_text get_text v)
  /\ (In f BOOL_FIELDS ->
      getattr self' f = (if raw_bool v then to_bool v else Ok v))
  /\ (In f INT_FIELDS ->
      getattr self' f = (if raw_int v then to_int v else Ok v))
  /\ (In f [ "TYPE"; "STATUS"; "PROTOCOL"; "FQDN" ] -> getattr self' f = Ok v).
Proof.
  intros H G.
  destruct (post_init_steps self self' H)
    as [s1 [s2 [s3 [s4 [s5 [E1 [E2 [E3 [E4 [E5 E6]]]]]]]]]].
  pose proof (fun g => convert_QDS_FACTORS_getattr_other s5 self' g E6) as F6.
  pose proof (fun g => convert_QDS_getattr_other s4 s5 g E5) as F5.
  pose proof (fun g Hg => for_each_getattr_other _ _ INT_FIELDS g Hg s3 s4 E4) as F4.
  pose proof (fun g Hg => for_each_getattr_other _ _ BOOL_FIELDS g Hg s2 s3 E3) as F3.
  pose proof (fun g Hg => for_each_getattr_other _ _ HTML_FIELDS g Hg s1 s2 E2) as F2.
  pose proof (fun g Hg => for_each_getattr_other _ _ DATETIME_FIELDS g Hg self s1 E1) as F1.
  assert (ND : forall l, l = DATETIME_FIELDS \/ l = HTML_FIELDS \/ l = BOOL_FIELDS
                         \/ l = INT_FIELDS -> NoDup l /\ forallb declared l = true).
  { intros l [ -> | [ -> | [ -> | -> ] ] ]; (split; [|reflexivity]);
      repeat constructor; simpl; intuition discriminate. }
  split; [|split; [|split; [|split]]]; intros Hin.
  - rewrite F6, F5, F4, F3, F2
      by (simpl in Hin |- *; intuition (subst; discriminate)).
    apply (for_each_getattr_in raw_datetime (to_datetime fromisoformat) DATETIME_FIELDS f)
      with (self := self); try exact E1; try exact G; try exact Hin; apply ND; auto.
  - rewrite F6, F5, F4, F3 by (simpl in Hin |- *; intuition (subst; discriminate)).
    rewrite (for_each_getattr_in (fun _ => true) (soup_text get_text) HTML_FIELDS f)
      with (self := s1) (v := v); try exact E2; try exact Hin; try apply ND; auto.
    rewrite F1 by (simpl in Hin |- *; intuition (subst; discriminate)). exact G.
  - rewrite F6, F5, F4 by (simpl in Hin |- *; intuition (subst; discriminate)).
    apply (for_each_getattr_in raw_bool to_bool BOOL_FIELDS f)
      with (self := s2); try exact E3; try exact Hin; try apply ND; auto.
    rewrite F2, F1 by (simpl in Hin |- *; intuition (subst; discriminate)). exact G.
  - rewrite F6, F5 by (simpl in Hin |- *; intuition (subst; discriminate)).
    apply (for_each_getattr_in raw_int to_int INT_FIELDS f)
      with (self := s3); try exact E4; try exact Hin; try apply ND; auto.
    rewrite F3, F2, F1 by (simpl in Hin |- *; intuition (subst; discriminate)). exact G.
  - rewrite F6, F5, F4, F3, F2, F1
      by (simpl in Hin |- *; intuition (subst; discriminate)).
    exact G.
Qed.

End ConstructedFields.

Section ConstructedRecord.

Import Detection.

Variable fromisoformat : string -> option datetime.
Variable get_text : string -> string.

Local Abbreviation __post_init__ := (Detection.__post_init__ fromisoformat get_text).
Local Abbreviation __init__ := (Detection.__init__ fromisoformat get_text).
Local Abbreviation from_dict := (Detection.from_dict fromisoformat get_text).

Lemma bind_arguments_default (kwargs : dict) (self : t) (name : string) :
  bind_arguments kwargs = Ok self ->
  declared name = true -> dict_has name kwargs = false ->
  getattr self name = Ok (default name).
Proof.
  unfold bind_arguments. intros H Hdecl Hk.
  destruct (filter _ (dict_keys kwargs)); [|discriminate].
  destruct (filter (fun n => negb (dict_has n kwargs)) required_arguments);
    [|discriminate].
  injection H as <-. apply dict_has_false in Hk.
  unfold declared, mem in Hdecl. apply existsb_exists in Hdecl.
  destruct Hdecl as [n [Hn E]]. apply String.eqb_eq in E. subst n.
  simpl in Hn.
  repeat (destruct Hn as [<-|Hn];
          [ unfold getattr, argument; simpl; now rewrite Hk | ]).
  destruct Hn.
Qed.

(** The steps that convert QDS and QDS_FACTORS leave a falsy value as
    it is. *)
Lemma post_init_falsy (self self' : t) (f : string) (v : value) :
  __post_init__ self = Ok self' ->
  In f [ "QDS"; "QDS_FACTORS" ] ->
  getattr self f = Ok v -> truthy v = false ->
  getattr self' f = Ok v.
Proof.
  intros H Hin G Hv.
  destruct (post_init_steps fromisoformat get_text self self' H)
    as [s1 [s2 [s3 [s4 [s5 [E1 [E2 [E3 [E4 [E5 E6]]]]]]]]]].
  assert (G4 : getattr s4 f = Ok v).
  { rewrite (for_each_getattr_other _ _ INT_FIELDS f) with (self := s3) by
      (try exact E4; simpl in Hin |- *; intuition (subst; discriminate)).
    rewrite (for_each_getattr_other _ _ BOOL_FIELDS f) with (self := s2) by
      (try exact E3; simpl in Hin |- *; intuition (subst; discriminate)).
    rewrite (for_each_getattr_other _ _ HTML_FIELDS f) with (self := s1) by
      (try exact E2; simpl in Hin |- *; intuition (subst; discriminate)).
    rewrite (for_each_getattr_other _ _ DATETIME_FIELDS f) with (self := self) by
      (try exact E1; simpl in Hin |- *; intuition (subst; discriminate)).
    exact G. }
  simpl in Hin. destruct Hin as [<-|[<-|[]]].
  - rewrite (convert_QDS_FACTORS_getattr_other s5 self' "QDS" E6) by discriminate.
    unfold convert_QDS in E5. cbn in G4. injection G4 as G4.
    rewrite G4, Hv in E5. injection E5 as <-. cbn. now rewrite G4.
  - assert (G5 : getattr s5 "QDS_FACTORS" = Ok v)
      by (rewrite (convert_QDS_getattr_other s4 s5 "QDS_FACTORS" E5) by discriminate;
          exact G4).
    unfold convert_QDS_FACTORS in E6. cbn in G5. injection G5 as G5.
    rewrite G5, Hv in E6. injection E6 as <-. cbn. now rewrite G5.
Qed.

(** X1: in a record the constructor returns, an integer field (UNIQUE_VULN_ID,
    QID, SEVERITY, TIMES_FOUND, PORT) given as None is None, given as an
    int is that int, and given as a str is the integer the str reads as;
    no record is returned for a str that reads as no integer. *)
Theorem constructed_integer_field (kwargs : dict) (self : t) (f : string) (v : value) :
  In f INT_FIELDS -> dict_get f kwargs = Some v -> __init__ kwargs = Ok self ->
  (v = VNone -> getattr self f = Ok VNone)
  /\ (is_int v = true -> getattr self f = Ok v)
  /\ (forall s, v = VStr s ->
        exists n, parse_int s = Some n /\ getattr self f = Ok (VInt n)).
Proof.
  intros Hin Hget Hinit. unfold Detection.__init__ in Hinit.
  destruct (bind_arguments kwargs) as [s0|] eqn:B; simpl in Hinit; [|discriminate].
  pose proof (bind_arguments_argument kwargs s0 B f v Hget) as G.
  destruct (post_init_field fromisoformat get_text s0 self f v Hinit G)
    as [_ [_ [_ [H _]]]].
  specialize (H Hin). split; [|split].
  - intros ->. exact H.
  - intros Hv. unfold raw_int in H. now rewrite Hv in H.
  - intros s ->. unfold raw_int, to_int in H. simpl in H.
    destruct (parse_int s) as [n|]; simpl in H.
    + exists n. split; [reflexivity | exact H].
    + destruct (getattr self f) as [x|e] eqn:X; [discriminate|].
      unfold getattr in X.
      simpl in Hin.
      repeat (destruct Hin as [<-|Hin]; [discriminate X|]). destruct Hin.
Qed.

(** X2: a boolean field (IS_IGNORED, IS_DISABLED, SSL) given as None or
    as a bool is kept; anything else becomes its truth value, so that
    every non-empty str, "0" and "false" among them, becomes True. *)
Theorem constructed_boolean_field (kwargs : dict) (self : t) (f : string) (v : value) :
  In f BOOL_FIELDS -> dict_get f kwargs = Some v -> __init__ kwargs = Ok self ->
  getattr self f = Ok (if raw_bool v then VBool (truthy v) else v)
  /\ (v = VNone -> getattr self f = Ok VNone)
  /\ (forall s, v = VStr s -> s <> EmptyString -> getattr self f = Ok (VBool true)).
Proof.
  intros Hin Hget Hinit. unfold Detection.__init__ in Hinit.
  destruct (bind_arguments kwargs) as [s0|] eqn:B; simpl in Hinit; [|discriminate].
  pose proof (bind_arguments_argument kwargs s0 B f v Hget) as G.
  destruct (post_init_field fromisoformat get_text s0 self f v Hinit G)
    as [_ [_ [H _]]].
  specialize (H Hin).
  assert (H' : getattr self f = Ok (if raw_bool v then VBool (truthy v) else v))
    by (rewrite H; unfold to_bool; now destruct (raw_bool v)).
  split; [exact H'|]. split.
  - intros ->. exact H'.
  - intros s -> Hs. rewrite H'. simpl.
    apply String.eqb_neq in Hs. now rewrite Hs.
Qed.

(** X3: a timestamp field given as a str holds the [datetime] that
    [fromisoformat] reads from it, and no record is returned when it reads
    none; a value that is no str, None included, is kept as it is. *)
Theorem constructed_timestamp_field (kwargs : dict) (self : t) (f : string) (v : value) :
  In f DATETIME_FIELDS -> dict_get f kwargs = Some v -> __init__ kwargs = Ok self ->
  (forall s, v = VStr s ->
     exists d, fromisoformat s = Some d /\ getattr self f = Ok (VDatetime d))
  /\ (is_str v = false -> getattr self f = Ok v).
Proof.
  intros Hin Hget Hinit. unfold Detection.__init__ in Hinit.
  destruct (bind_arguments kwargs) as [s0|] eqn:B; simpl in Hinit; [|discriminate].
  pose proof (bind_arguments_argument kwargs s0 B f v Hget) as G.
  destruct (post_init_field fromisoformat get_text s0 self f v Hinit G) as [H _].
  specialize (H Hin). split.
  - intros s ->. simpl in H. destruct (fromisoformat s) as [d|].
    + exists d. split; [reflexivity | exact H].
    + destruct (getattr self f) as [x|e] eqn:X; [discriminate|].
      unfold getattr in X. simpl in Hin.
      repeat (destruct Hin as [<-|Hin]; [discriminate X|]). destruct Hin.
  - intros Hv. unfold raw_datetime in H. now rewrite Hv in H.
Qed.

(** X4: a record is returned only when RESULTS is a str, and it then
    holds the text bs4 extracts from it; when RESULTS is not given it
    holds the text of the empty markup. *)
Theorem constructed_RESULTS (kwargs : dict) (self : t) :
  __init__ kwargs = Ok self ->
  (forall v, dict_get "RESULTS" kwargs = Some v ->
     exists s, v = VStr s /\ RESULTS self = VStr (get_text s))
  /\ (dict_has "RESULTS" kwargs = false ->
      RESULTS self = VStr (get_text EmptyString)).
Proof.
  intros Hinit. unfold Detection.__init__ in Hinit.
  destruct (bind_arguments kwargs) as [s0|] eqn:B; simpl in Hinit; [|discriminate].
  assert (Step : forall v, getattr s0 "RESULTS" = Ok v ->
                 exists s, v = VStr s /\ RESULTS self = VStr (get_text s)).
  { intros v G.
    destruct (post_init_field fromisoformat get_text s0 self "RESULTS" v Hinit G)
      as [_ [H _]].
    specialize (H (or_introl eq_refl)). cbn in H.
    destruct v; try discriminate. exists s. split; [reflexivity|].
    simpl in H. now injection H. }
  split.
  - intros v Hget. apply Step. exact (bind_arguments_argument kwargs s0 B _ _ Hget).
  - intros Hno.
    destruct (Step (VStr EmptyString)) as [s [E R]].
    + exact (bind_arguments_default kwargs s0 "RESULTS" B eq_refl Hno).
    + injection E as <-. exact R.
Qed.


(** X6: a field that has a default and is not given holds that default
    in the record: None, False or 0 (RESULTS, whose default passes
    through bs4, apart). *)
Theorem constructed_default (kwargs : dict) (self : t) (f : string) (d : value) :
  In (f, Some d) fields -> f <> "RESULTS" ->
  dict_has f kwargs = false -> __init__ kwargs = Ok self ->
  getattr self f = Ok d.
Proof.
  intros Hin Hne Hno Hinit. unfold Detection.__init__ in Hinit.
  destruct (bind_arguments kwargs) as [s0|] eqn:B; simpl in Hinit; [|discriminate].
  assert (G : declared f = true -> getattr s0 f = Ok (default f))
    by (intros D; exact (bind_arguments_default kwargs s0 f B D Hno)).
  pose proof (post_init_field fromisoformat get_text s0 self f) as P.
  pose proof (post_init_falsy s0 self f) as Q.
  simpl in Hin.
  repeat (destruct Hin as [Hin|Hin];
          [ first [discriminate Hin | injection Hin as <- <-];
            specialize (G eq_refl);
            first
              [ exfalso; apply Hne; reflexivity
              | destruct (P _ Hinit G) as [P1 [_ [P3 [P4 P5]]]];
                first [ apply P1; simpl; tauto
                      | apply P3; simpl; tauto
                      | apply P4; simpl; tauto
                      | apply P5; simpl; tauto ]
              | apply (Q _ Hinit); [simpl; tauto | exact G | reflexivity] ]
          | ]).
  destruct Hin.
Qed.

End ConstructedRecord.

Section ConstructedShape.

Import Detection.

Variable fromisoformat : string -> option datetime.
Variable get_text : string -> string.

Local Abbreviation __post_init__ := (Detection.__post_init__ fromisoformat get_text).
Local Abbreviation __init__ := (Detection.__init__ fromisoformat get_text).
Local Abbreviation from_dict := (Detection.from_dict fromisoformat get_text).

Lemma forallb_settled (guard : value -> bool) (self : t) (names : list string) :
  forallb (settled guard self) names = true ->
  Forall (fun f => exists v, getattr self f = Ok v /\ guard v = false) names.
Proof.
  intros H. apply Forall_forall. intros f Hin.
  rewrite forallb_forall in H. specialize (H f Hin). unfold settled in H.
  destruct (getattr self f) as [v|]; [|discriminate].
  exists v. split; [reflexivity | now apply negb_true_iff].
Qed.

Lemma QDSFactor_of_object (x fx : value) :
  QDSFactor_of x = Ok fx -> exists n v, fx = VQDSFactor n v.
Proof.
  unfold QDSFactor_of. intros H.
  destruct (subscript x "@name") as [n|]; simpl in H; [|discriminate].
  destruct (subscript x "#text") as [v|]; simpl in H; [|discriminate].
  injection H as <-. unfold QDSFactor. eauto.
Qed.

Lemma mapM_QDSFactor_of (l fs : list value) :
  mapM QDSFactor_of l = Ok fs ->
  length fs = length l /\ Forall (fun x => exists n v, x = VQDSFactor n v) fs.
Proof.
  revert fs. induction l as [|x l IH]; intros fs H; simpl in H.
  - injection H as <-. split; [reflexivity | constructor].
  - destruct (QDSFactor_of x) as [fx|] eqn:X; simpl in H; [|discriminate].
    destruct (mapM QDSFactor_of l) as [fs'|]; simpl in H; [|discriminate].
    injection H as <-. destruct (IH fs' eq_refl) as [L F].
    split; [simpl; now rewrite L|].
    constructor; [exact (QDSFactor_of_object x fx X) | exact F].
Qed.

(** X7: every record the constructor returns is typed: no timestamp
    field holds a str, RESULTS is a str, a boolean field holds a bool or
    None, an integer field an int or None, a QDS that is truthy is a QDS
    object, and QDS_FACTORS that are truthy are a list of QDSFactor
    objects. *)
Theorem constructed_record_is_typed (kwargs : dict) (self : t) :
  __init__ kwargs = Ok self ->
  Forall (fun f => exists v, getattr self f = Ok v /\ is_str v = false) DATETIME_FIELDS
  /\ (exists s, RESULTS self = VStr s)
  /\ Forall (fun f => exists v, getattr self f = Ok v /\ (v = VNone \/ is_bool v = true))
       BOOL_FIELDS
  /\ Forall (fun f => exists v, getattr self f = Ok v /\ (v = VNone \/ is_int v = true))
       INT_FIELDS
  /\ (truthy (QDS self) = true -> exists s n, QDS self = VQDS s n)
  /\ (truthy (QDS_FACTORS self) = true ->
      exists l, QDS_FACTORS self = VList l
                /\ Forall (fun x => exists n v, x = VQDSFactor n v) l).
Proof.
  intros Hinit. unfold Detection.__init__ in Hinit.
  destruct (bind_arguments kwargs) as [s0|]; simpl in Hinit; [|discriminate].
  pose proof (post_init_normalized fromisoformat get_text s0 self Hinit) as N.
  unfold normalized in N. rewrite !andb_true_iff in N.
  destruct N as [[[Nd Nr] Nb] Ni].
  destruct (post_init_steps fromisoformat get_text s0 self Hinit)
    as [s1 [s2 [s3 [s4 [s5 [_ [_ [_ [_ [E5 E6]]]]]]]]]].
  split; [|split; [|split; [|split; [|split]]]].
  - eapply Forall_impl; [|exact (forallb_settled _ _ _ Nd)].
    intros f [v [G R]]. exists v. split; [exact G|].
    unfold raw_datetime in R. destruct v; try reflexivity; discriminate.
  - destruct (RESULTS self); try discriminate. eauto.
  - eapply Forall_impl; [|exact (forallb_settled _ _ _ Nb)].
    intros f [v [G R]]. exists v. split; [exact G|].
    unfold raw_bool in R. destruct v; try discriminate; auto.
  - eapply Forall_impl; [|exact (forallb_settled _ _ _ Ni)].
    intros f [v [G R]]. exists v. split; [exact G|].
    unfold raw_int in R. destruct v; try discriminate; auto.
  - assert (Q5 : truthy (QDS s5) = true -> exists s n, QDS s5 = VQDS s n).
    { unfold convert_QDS in E5. destruct (truthy (QDS s4)) eqn:T.
      - destruct (subscript (QDS s4) "@severity") as [sev|]; simpl in E5; [|discriminate].
        destruct (subscript (QDS s4) "#text") as [x|]; simpl in E5; [|discriminate].
        destruct (py_int x) as [n|]; simpl in E5; [|discriminate].
        injection E5 as <-. intros _. exists sev, n. reflexivity.
      - injection E5 as <-. congruence. }
    pose proof (convert_QDS_FACTORS_getattr_other s5 self "QDS" E6) as F.
    cbn in F. assert (E : QDS self = QDS s5) by (injection F; [auto | discriminate]).
    rewrite E. exact Q5.
  - unfold convert_QDS_FACTORS in E6. destruct (truthy (QDS_FACTORS s5)) eqn:T.
    + destruct (subscript (QDS_FACTORS s5) "QDS_FACTOR") as [node|];
        simpl in E6; [|discriminate].
      intros _.
      assert (Shape : forall x, (f <- QDSFactor_of x ;;
                                 Ok (setattr s5 "QDS_FACTORS" (VList [ f ]))) = Ok self ->
                                exists l, QDS_FACTORS self = VList l
                                  /\ Forall (fun x => exists n v, x = VQDSFactor n v) l).
      { intros x Hx. destruct (QDSFactor_of x) as [fx|] eqn:M; simpl in Hx; [|discriminate].
        injection Hx as <-. exists [ fx ]. split; [reflexivity|].
        constructor; [exact (QDSFactor_of_object x fx M) | constructor]. }
      destruct node; try exact (Shape _ E6).
      destruct (mapM QDSFactor_of items) as [fs|] eqn:M; simpl in E6; [|discriminate].
      injection E6 as <-. exists fs. split; [reflexivity|].
      exact (proj2 (mapM_QDSFactor_of _ _ M)).
    + injection E6 as <-. congruence.
Qed.

(** X8: [from_dict] undoes [to_dict] on a record the constructor built
    without score and factors: all 21 fields come back, FQDN included,
    RESULTS after one more text extraction; when that extraction leaves
    the text as it is, the record itself comes back. *)
Theorem from_dict_of_to_dict (kwargs : dict) (self : t) :
  __init__ kwargs = Ok self ->
  truthy (QDS self) = false -> truthy (QDS_FACTORS self) = false ->
  exists s,
    RESULTS self = VStr s
    /\ from_dict (VDict (to_dict self))
       = Ok (setattr self "RESULTS" (VStr (get_text s)))
    /\ (get_text s = s -> from_dict (VDict (to_dict self)) = Ok self).
Proof.
  intros Hinit HQ HF.
  assert (N : normalized self = true).
  { unfold Detection.__init__ in Hinit.
    destruct (bind_arguments kwargs) as [s0|]; simpl in Hinit; [|discriminate].
    exact (post_init_normalized fromisoformat get_text s0 self Hinit). }
  assert (R : exists s, RESULTS self = VStr s).
  { unfold normalized in N. rewrite !andb_true_iff in N.
    destruct N as [[[_ R] _] _]. destruct (RESULTS self); try discriminate. eauto. }
  destruct R as [s R]. exists s. split; [exact R|].
  assert (B : bind_arguments (to_dict self) = Ok self) by (destruct self; reflexivity).
  assert (E : from_dict (VDict (to_dict self))
              = Ok (setattr self "RESULTS" (VStr (get_text s)))).
  { unfold Detection.from_dict.
    replace (forallb (fun k => dict_has k (to_dict self)) required_keys) with true
      by reflexivity.
    unfold Detection.__init__. rewrite B. cbn [bind].
    now apply post_init_of_normalized. }
  split; [exact E|].
  intros Hs. rewrite E, Hs. f_equal.
  destruct self. cbn in R. subst. reflexivity.
Qed.

End ConstructedShape.

Section Mapping.

Import Detection.

(** X9: [to_dict] holds every declared field under its name, with the
    attribute's value, and no other key; [valid_values] lists the fields
    whose value is not None. *)
Theorem to_dict_holds_every_field (self : t) (name : string) :
  dict_get name (to_dict self)
  = match getattr self name with Ok v => Some v | Err _ => None end
  /\ (dict_has name (to_dict self) = declared name)
  /\ (In name (valid_values self) <->
      exists v, getattr self name = Ok v /\ v <> VNone).
Proof.
  assert (G : dict_get name (to_dict self)
              = match getattr self name with Ok v => Some v | Err _ => None end).
  { unfold to_dict, getattr. cbn.
    repeat match goal with
    | |- context [String.eqb name ?n] =>
        destruct (String.eqb_spec name n) as [->|?]; [reflexivity|]
    end.
    reflexivity. }
  split; [exact G|]. split.
  { unfold dict_has, declared, mem, dict_keys, to_dict, fields. cbn.
    repeat match goal with
    | |- context [String.eqb name ?n] =>
        destruct (String.eqb_spec name n) as [->|?]; [reflexivity|]
    end.
    reflexivity. }
  unfold valid_values. rewrite in_map_iff. split.
  - intros [[k v] [E Hin]]. simpl in E. subst k.
    apply filter_In in Hin. destruct Hin as [Hin Hv]. simpl in Hv.
    exists v. split; [|intros ->; discriminate].
    unfold to_dict in Hin. simpl in Hin.
    repeat (destruct Hin as [Hin|Hin]; [injection Hin as <- <-; reflexivity|]).
    destruct Hin.
  - intros [v [Hget Hv]]. exists (name, v). split; [reflexivity|].
    apply filter_In. split; [|destruct v; [contradiction|..]; reflexivity].
    rewrite Hget in G. clear Hget Hv. revert G. unfold to_dict. cbn.
    repeat match goal with
    | |- context [String.eqb name ?n] =>
        destruct (String.eqb_spec name n) as [->|?];
        [ intros G; injection G as <-; tauto | ]
    end.
    discriminate.
Qed.

End Mapping.

(** * Ordering detections *)

Section Ordering.

Import Detection.

(** X10: detections whose QID and SEVERITY are ints and whose TYPE is a
    str are totally ordered: no comparison raises, the six operators
    answer from one three-way result, [a < b] is [b > a], and the two are
    equal exactly when QID, TYPE and SEVERITY are the same. *)
Theorem typed_detections_are_ordered (a b : t) (q q' s s' : Z) (ty ty' : string) :
  QID a = VInt q -> TYPE a = VStr ty -> SEVERITY a = VInt s ->
  QID b = VInt q' -> TYPE b = VStr ty' -> SEVERITY b = VInt s' ->
  exists c : comparison,
    (forall op, rich_compare op a b = Some (holds op c))
    /\ (forall op, rich_compare op b a = Some (holds op (CompOpp c)))
    /\ __eq__ a b = match c with Eq => true | _ => false end
    /\ (c = Eq <-> q = q' /\ ty = ty' /\ s = s').
Proof.
  intros Qa Ta Sa Qb Tb Sb.
  unfold rich_compare, __eq__, compare_fields.
  rewrite Qa, Ta, Sa, Qb, Tb, Sb. cbn [seq_cmp all2 py_eq py_cmp].
  rewrite (Z.eqb_sym q' q), (String.eqb_sym ty' ty), (Z.eqb_sym s' s).
  rewrite (Z.compare_antisym q q'), (Z.compare_antisym s s').
  rewrite (String.compare_antisym ty' ty).
  destruct (Z.eqb_spec q q') as [->|Hq];
    [destruct (String.eqb_spec ty ty') as [->|Ht];
     [destruct (Z.eqb_spec s s') as [->|Hs]|]|].
  - exists Eq. cbn. repeat split; auto.
  - exists (s ?= s'). cbn. split; [intros; reflexivity|].
    split; [intros; reflexivity|]. split; [|split].
    + destruct (s ?= s') eqn:C; auto. apply Z.compare_eq in C. contradiction.
    + intros C. apply Z.compare_eq in C. contradiction.
    + intros [_ [_ E]]. contradiction.
  - exists (String.compare ty ty'). cbn. split; [intros; reflexivity|].
    split; [intros; reflexivity|]. split; [|split].
    + destruct (String.compare ty ty') eqn:C; auto.
      apply String.compare_eq_iff in C. contradiction.
    + intros C. apply String.compare_eq_iff in C. contradiction.
    + intros [_ [E _]]. contradiction.
  - exists (q ?= q'). cbn. split; [intros; reflexivity|].
    split; [intros; reflexivity|]. split; [|split].
    + destruct (q ?= q') eqn:C; auto. apply Z.compare_eq in C. contradiction.
    + intros C. apply Z.compare_eq in C. contradiction.
    + intros [E _]. contradiction.
Qed.

(** X11: when one detection has QID None and the other an int QID, the
    two are unequal and every ordering between them raises [TypeError],
    whatever the other fields hold. *)
Theorem ordering_raises_on_None_QID (a b : t) (n : Z) (op : cmp_op) :
  QID a = VNone -> QID b = VInt n ->
  __eq__ a b = false /\ __eq__ b a = false
  /\ rich_compare op a b = None /\ rich_compare op b a = None.
Proof.
  intros Qa Qb. unfold __eq__, rich_compare, compare_fields.
  rewrite Qa, Qb. repeat split.
Qed.

(** X12: [__int__] of a record the constructor returns is the QID it was
    given when that was an int, and the integer it reads as when that
    was a str. *)
Theorem int_of_constructed (fromisoformat : string -> option datetime)
    (get_text : string -> string) (kwargs : dict) (self : t) (v : value) :
  dict_get "QID" kwargs = Some v ->
  Detection.__init__ fromisoformat get_text kwargs = Ok self ->
  (is_int v = true -> __int__ self = v)
  /\ (forall s, v = VStr s -> exists n, parse_int s = Some n /\ __int__ self = VInt n).
Proof.
  intros Hget Hinit. unfold __int__.
  assert (G : getattr self "QID" = (if raw_int v then to_int v else Ok v)).
  { unfold Detection.__init__ in Hinit.
    destruct (bind_arguments kwargs) as [s0|] eqn:B; simpl in Hinit; [|discriminate].
    pose proof (bind_arguments_argument kwargs s0 B "QID" v Hget) as G0.
    destruct (post_init_field fromisoformat get_text s0 self "QID" v Hinit G0)
      as [_ [_ [_ [H _]]]].
    apply H. simpl. tauto. }
  cbn in G. split.
  - intros Hv. unfold raw_int in G. rewrite Hv in G. simpl in G. now injection G.
  - intros s ->. unfold raw_int, to_int in G. simpl in G.
    destruct (parse_int s) as [n|]; simpl in G; [|discriminate].
    exists n. split; [reflexivity | now injection G].
Qed.

End Ordering.

(** * Lists of records *)

Lemma mapM_Forall2 {A B} (f : A -> result B) (xs : list A) (ys : list B) :
  mapM f xs = Ok ys -> Forall2 (fun x y => f x = Ok y) xs ys.
Proof.
  revert ys. induction xs as [|x xs IH]; intros ys H; simpl in H.
  - injection H as <-. constructor.
  - destruct (f x) as [y|] eqn:X; simpl in H; [|discriminate].
    destruct (mapM f xs) as [ys'|]; simpl in H; [|discriminate].
    injection H as <-. constructor; [exact X | now apply IH].
Qed.

Lemma Forall2_mapM {A B} (f : A -> result B) (xs : list A) (ys : list B) :
  Forall2 (fun x y => f x = Ok y) xs ys -> mapM f xs = Ok ys.
Proof.
  induction 1 as [|x y xs ys Hx _ IH]; simpl; [reflexivity|].
  now rewrite Hx, IH.
Qed.

Lemma mapM_fails {A B} (f : A -> result B) (xs : list A) (x : A) (e : exn) :
  In x xs -> f x = Err e -> exists e', mapM f xs = Err e'.
Proof.
  induction xs as [|y xs IH]; intros Hin Hx; simpl in *; [destruct Hin|].
  destruct Hin as [->|Hin].
  - rewrite Hx. simpl. eauto.
  - destruct (f y); simpl; [|eauto].
    destruct (IH Hin Hx) as [e' ->]. simpl. eauto.
Qed.

Lemma spread_taken (k : string) (kwargs : dict) :
  dict_has k kwargs = true -> spread [ k ] kwargs = Err (TypeError (MultipleValues k)).
Proof.
  intros Hk. unfold spread.
  destruct (filter (fun k0 => mem k0 [ k ]) (dict_keys kwargs)) as [|k' ks] eqn:F.
  - unfold dict_has, mem in Hk. apply existsb_exists in Hk.
    destruct Hk as [x [Hin E]]. apply String.eqb_eq in E. subst x.
    assert (X : In k (filter (fun k0 => mem k0 [ k ]) (dict_keys kwargs))).
    { apply filter_In. split; [exact Hin|]. unfold mem. simpl.
      now rewrite String.eqb_refl. }
    rewrite F in X. destruct X.
  - assert (X : In k' (filter (fun k0 => mem k0 [ k ]) (dict_keys kwargs)))
      by (rewrite F; now left).
    apply filter_In in X. destruct X as [_ E].
    unfold mem in E. simpl in E. rewrite orb_false_r in E.
    apply String.eqb_eq in E. now subst k'.
Qed.

Section ConstructedFactors.

Import Detection.

Variable fromisoformat : string -> option datetime.
Variable get_text : string -> string.

Local Abbreviation __init__ := (Detection.__init__ fromisoformat get_text).

Lemma mapM_QDSFactor_of_pairs (items fs : list value) :
  mapM QDSFactor_of items = Ok fs ->
  exists pairs : list (value * value),
    Forall2 (fun x p => subscript x "@name" = Ok (fst p)
                        /\ subscript x "#text" = Ok (snd p)) items pairs
    /\ fs = map (fun p => VQDSFactor (fst p) (snd p)) pairs.
Proof.
  revert fs. induction items as [|x items IH]; intros fs H; simpl in H.
  - injection H as <-. exists []. split; constructor.
  - unfold QDSFactor_of at 1 in H.
    destruct (subscript x "@name") as [n|] eqn:N; simpl in H; [|discriminate].
    destruct (subscript x "#text") as [v|] eqn:V; simpl in H; [|discriminate].
    destruct (mapM QDSFactor_of items) as [fs'|]; simpl in H; [|discriminate].
    injection H as <-. destruct (IH fs' eq_refl) as [pairs [F ->]].
    exists ((n, v) :: pairs). split; [constructor; auto | reflexivity].
Qed.

(** X13: when the constructor returns a record for a QDS_FACTORS node
    whose QDS_FACTOR is a list, the record holds one QDSFactor per element
    of the list, in the list's order, each with the element's "@name" and
    "#text"; every element had both keys. *)
Theorem constructed_QDS_FACTORS
    (kwargs : dict) (self : t) (node : dict) (items : list value) :
  dict_get "QDS_FACTORS" kwargs = Some (VDict node) ->
  dict_get "QDS_FACTOR" node = Some (VList items) ->
  __init__ kwargs = Ok self ->
  exists pairs : list (value * value),
    Forall2 (fun x p => subscript x "@name" = Ok (fst p)
                        /\ subscript x "#text" = Ok (snd p)) items pairs
    /\ QDS_FACTORS self = VList (map (fun p => VQDSFactor (fst p) (snd p)) pairs).
Proof.
  intros Hget Hnode Hinit. unfold Detection.__init__ in Hinit.
  destruct (bind_arguments kwargs) as [s0|] eqn:B; simpl in Hinit; [|discriminate].
  pose proof (bind_arguments_argument kwargs s0 B _ _ Hget) as G.
  destruct (post_init_steps fromisoformat get_text s0 self Hinit)
    as [s1 [s2 [s3 [s4 [s5 [E1 [E2 [E3 [E4 [E5 E6]]]]]]]]]].
  assert (G5 : getattr s5 "QDS_FACTORS" = Ok (VDict node)).
  { rewrite (convert_QDS_getattr_other s4 s5 "QDS_FACTORS" E5) by discriminate.
    rewrite (for_each_getattr_other _ _ INT_FIELDS "QDS_FACTORS") with (self := s3)
      by (try exact E4; simpl; intuition discriminate).
    rewrite (for_each_getattr_other _ _ BOOL_FIELDS "QDS_FACTORS") with (self := s2)
      by (try exact E3; simpl; intuition discriminate).
    rewrite (for_each_getattr_other _ _ HTML_FIELDS "QDS_FACTORS") with (self := s1)
      by (try exact E2; simpl; intuition discriminate).
    rewrite (for_each_getattr_other _ _ DATETIME_FIELDS "QDS_FACTORS") with (self := s0)
      by (try exact E1; simpl; intuition discriminate).
    exact G. }
  cbn in G5. injection G5 as G5.
  unfold convert_QDS_FACTORS in E6. rewrite G5 in E6.
  assert (T : truthy (VDict node) = true)
    by (destruct node; [discriminate Hnode | reflexivity]).
  rewrite T in E6. unfold subscript in E6. rewrite Hnode in E6. cbn [bind] in E6.
  destruct (mapM QDSFactor_of items) as [fs|] eqn:M; simpl in E6; [|discriminate].
  injection E6 as <-.
  destruct (mapM_QDSFactor_of_pairs items fs M) as [pairs [F ->]].
  exists pairs. split; [exact F | reflexivity].
Qed.

End ConstructedFactors.

(** * The report functions at their edges *)

Section ReportEdges.

Variable BasicAuth : Type.
Variable call_api : BasicAuth -> request -> result Response.
Variable xml_parser : string -> result value.
Variable VMDRReport : Type.
Variable VMDRReport_from_dict : value -> result VMDRReport.
Variable ReportTemplate : Type.
Variable ReportTemplate_from_dict : value -> result ReportTemplate.

Local Abbreviation manage_reports := (Reports.manage_reports BasicAuth call_api).
Local Abbreviation get_report_list :=
  (Reports.get_report_list BasicAuth call_api xml_parser VMDRReport VMDRReport_from_dict).
Local Abbreviation get_template_list :=
  (Reports.get_template_list BasicAuth call_api xml_parser
     ReportTemplate ReportTemplate_from_dict).
Local Abbreviation launch_report := (Reports.launch_report BasicAuth call_api xml_parser).

Local Abbreviation template_request :=
  {| module := "vmdr"; endpoint := "get_template_list";
     params := None; payload := None; headers := Some Reports.sdk_headers |}.

(** X14: without a SIMPLE_RETURN key, [get_template_list] returns the
    one record of a REPORT_TEMPLATE node, the same for a bare mapping and
    for a one-element list, and raises [KeyError] when the response has no
    REPORT_TEMPLATE_LIST. *)
Theorem get_template_list_one_template
    (auth : BasicAuth) (response : Response) (data : dict) (template : dict) :
  call_api auth template_request = Ok response ->
  xml_parser (text response) = Ok (VDict data) ->
  dict_has "SIMPLE_RETURN" data = false ->
  (subscripts (VDict data) [ "REPORT_TEMPLATE_LIST"; "REPORT_TEMPLATE" ]
     = Ok (VDict template)
   \/ subscripts (VDict data) [ "REPORT_TEMPLATE_LIST"; "REPORT_TEMPLATE" ]
     = Ok (VList [ VDict template ]) ->
   get_template_list auth
   = (r <- ReportTemplate_from_dict (VDict template) ;; Ok [ r ]))
  /\ (dict_has "REPORT_TEMPLATE_LIST" data = false ->
      get_template_list auth = Err (KeyError "REPORT_TEMPLATE_LIST")).
Proof.
  intros Hcall Hparse Hsoft.
  assert (Start : get_template_list auth
                  = (templates <- subscripts (VDict data)
                                    [ "REPORT_TEMPLATE_LIST"; "REPORT_TEMPLATE" ] ;;
                     items <- iterate (if is_dict templates
                                       then VList [ templates ] else templates) ;;
                     mapM ReportTemplate_from_dict items)).
  { unfold Reports.get_template_list. rewrite Hcall. cbn [bind].
    rewrite Hparse. cbn [bind contains]. now rewrite Hsoft. }
  rewrite Start. split.
  - intros [-> | ->]; cbn;
      destruct (ReportTemplate_from_dict (VDict template)); reflexivity.
  - intros Hno. apply dict_has_false in Hno. cbn. now rewrite Hno.
Qed.

(** X15: [get_report_list] over a REPORT list returns one record per
    element, in the list's order, each the [from_dict] of its element:
    it returns a list exactly when that list holds the [from_dict] of
    every element in turn.  When [from_dict] fails on any element the
    call fails and no shorter list is returned. *)
Theorem get_report_list_all_or_nothing
    (auth : BasicAuth) (kwargs : dict) (response : Response) (data : value)
    (items : list value) :
  dict_has "action" kwargs = false ->
  manage_reports auth "list" kwargs = Ok response ->
  xml_parser (text response) = Ok data ->
  subscripts data [ "REPORT_LIST_OUTPUT"; "RESPONSE"; "REPORT_LIST"; "REPORT" ]
    = Ok (VList items) ->
  (forall records,
      get_report_list auth kwargs = Ok records <->
      Forall2 (fun x r => VMDRReport_from_dict x = Ok r) items records)
  /\ (forall x e,
        In x items -> VMDRReport_from_dict x = Err e ->
        exists e', get_report_list auth kwargs = Err e')
  /\ (items = [] -> get_report_list auth kwargs = Ok []).
Proof.
  intros Hact Hcall Hparse Hnode.
  assert (Start : get_report_list auth kwargs = mapM VMDRReport_from_dict items).
  { unfold Reports.get_report_list.
    rewrite (spread_fresh "action" kwargs Hact). cbn [bind].
    rewrite Hcall. cbn [bind]. rewrite Hparse. cbn [bind].
    unfold Reports.report_list. rewrite Hnode. reflexivity. }
  rewrite Start. split; [|split].
  - intros records. split; [apply mapM_Forall2 | apply Forall2_mapM].
  - intros x e. apply mapM_fails.
  - now intros ->.
Qed.

(** X16: an "action" among the caller's options is refused by the call
    of [manage_reports] inside [get_report_list] and [launch_report],
    with the same [TypeError] for every transport and parser. *)
Theorem caller_action_is_refused
    (auth : BasicAuth) (template_id : value) (kwargs : dict) :
  dict_has "action" kwargs = true ->
  get_report_list auth kwargs = Err (TypeError (MultipleValues "action"))
  /\ launch_report auth template_id kwargs = Err (TypeError (MultipleValues "action")).
Proof.
  intros Hact. split.
  - unfold Reports.get_report_list. now rewrite (spread_taken "action" kwargs Hact).
  - unfold Reports.launch_report.
    rewrite spread_taken; [reflexivity|].
    now rewrite dict_has_set_other by discriminate.
Qed.

(** X17: the payload of a launch is the caller's options with
    "template_id" set to the template, "action" to "launch" and
    "echo_request" to False; every other option is there as given, and
    no query parameters are sent. *)
Theorem launch_payload_keeps_options
    (auth : BasicAuth) (template_id : value) (kwargs : dict) :
  dict_has "action" kwargs = false ->
  exists bag,
    launch_report auth template_id kwargs
    = (response <- call_api auth {| module := "vmdr"; endpoint := "launch_report";
                                    params := None; payload := Some bag;
                                    headers := Some Reports.sdk_headers |} ;;
       data <- xml_parser (text response) ;;
       Reports.report_id data)
    /\ dict_get "template_id" bag = Some template_id
    /\ dict_get "action" bag = Some (VStr "launch")
    /\ dict_get "echo_request" bag = Some (VBool false)
    /\ (forall k, k <> "template_id" -> k <> "action" -> k <> "echo_request" ->
                  dict_get k bag = dict_get k kwargs)
    /\ (forall k, dict_has k kwargs = true -> dict_has k bag = true).
Proof.
  intros Hact. eexists. split; [|split; [|split; [|split; [|split]]]].
  - unfold Reports.launch_report.
    rewrite spread_fresh
      by (rewrite dict_has_set_other by discriminate; exact Hact).
    reflexivity.
  - rewrite !dict_get_set_other by discriminate. apply dict_get_set_same.
  - rewrite dict_get_set_other by discriminate. apply dict_get_set_same.
  - apply dict_get_set_same.
  - intros k H1 H2 H3. now rewrite !dict_get_set_other by congruence.
  - intros k Hk.
    destruct (String.eqb_spec k "echo_request") as [->|H3];
      [apply dict_has_get; eexists; apply dict_get_set_same|].
    rewrite dict_has_set_other by exact H3.
    destruct (String.eqb_spec k "action") as [->|H2];
      [apply dict_has_get; eexists; apply dict_get_set_same|].
    rewrite dict_has_set_other by exact H2.
    destruct (String.eqb_spec k "template_id") as [->|H1];
      [apply dict_has_get; eexists; apply dict_get_set_same|].
    now rewrite dict_has_set_other by exact H1.
Qed.

(** X18: [launch_report] turns only a missing key into
    [QualysAPIError].  A VALUE that is no integer raises the error of
    [int]; a path through something that is no mapping raises its
    [TypeError]; and when a key is missing and the envelope has no text
    either, the error of reading the text is raised. *)
Theorem launch_report_other_failures
    (auth : BasicAuth) (template_id : value) (kwargs : dict)
    (response : Response) (data : value) :
  dict_has "action" kwargs = false ->
  manage_reports auth "launch" (dict_set "template_id" template_id kwargs)
    = Ok response ->
  xml_parser (text response) = Ok data ->
  (forall v e,
      subscripts data [ "SIMPLE_RETURN"; "RESPONSE"; "ITEM_LIST"; "ITEM"; "VALUE" ] = Ok v ->
      py_int v = Err e ->
      launch_report auth template_id kwargs = Err e
      /\ forall m, e <> QualysAPIError m)
  /\ (forall why,
        subscripts data [ "SIMPLE_RETURN"; "RESPONSE"; "ITEM_LIST"; "ITEM"; "VALUE" ]
          = Err (TypeError why) ->
        launch_report auth template_id kwargs = Err (TypeError why))
  /\ (forall k e,
        subscripts data [ "SIMPLE_RETURN"; "RESPONSE"; "ITEM_LIST"; "ITEM"; "VALUE" ]
          = Err (KeyError k) ->
        subscripts data [ "SIMPLE_RETURN"; "RESPONSE"; "TEXT" ] = Err e ->
        launch_report auth template_id kwargs = Err e).
Proof.
  intros Hact Hcall Hparse.
  assert (Start : launch_report auth template_id kwargs = Reports.report_id data).
  { unfold Reports.launch_report.
    rewrite spread_fresh
      by (rewrite dict_has_set_other by discriminate; exact Hact).
    cbn [bind]. rewrite Hcall. cbn [bind]. now rewrite Hparse. }
  rewrite Start. unfold Reports.report_id. split; [|split].
  - intros v e Hv He. rewrite Hv. cbn [bind]. rewrite He.
    assert (N : forall m, e <> QualysAPIError m).
    { intros m ->. unfold py_int in He.
      destruct v; try discriminate. destruct (parse_int s); discriminate. }
    split; [|exact N].
    destruct e; try reflexivity.
    unfold py_int in He. destruct v; try discriminate.
    destruct (parse_int s); discriminate.
  - intros why H. now rewrite H.
  - intros k e H Ht. rewrite H. cbn [bind]. now rewrite Ht.
Qed.

(** X19: the three functions hand on what the transport and the parser
    raise: an error of [call_api] or of [xml_parser] is the error of the
    call, a [KeyError] included, which [launch_report] does not take for a
    soft failure. *)
Theorem collaborator_errors_pass_through
    (auth : BasicAuth) (template_id : value) (kwargs : dict) (e : exn) :
  dict_has "action" kwargs = false ->
  (manage_reports auth "list" kwargs = Err e -> get_report_list auth kwargs = Err e)
  /\ (manage_reports auth "launch" (dict_set "template_id" template_id kwargs) = Err e ->
      launch_report auth template_id kwargs = Err e)
  /\ (call_api auth template_request = Err e -> get_template_list auth = Err e)
  /\ (forall response,
        xml_parser (text response) = Err e ->
        (manage_reports auth "list" kwargs = Ok response ->
         get_report_list auth kwargs = Err e)
        /\ (manage_reports auth "launch" (dict_set "template_id" template_id kwargs)
              = Ok response ->
            launch_report auth template_id kwargs = Err e)
        /\ (call_api auth template_request = Ok response ->
            get_template_list auth = Err e)).
Proof.
  intros Hact.
  assert (S1 : spread [ "action" ] kwargs = Ok kwargs) by now apply spread_fresh.
  assert (S2 : spread [ "action" ] (dict_set "template_id" template_id kwargs)
               = Ok (dict_set "template_id" template_id kwargs))
    by (apply spread_fresh; now rewrite dict_has_set_other by discriminate).
  unfold Reports.get_report_list, Reports.launch_report, Reports.get_template_list.
  rewrite S1, S2. cbn [bind].
  split; [|split; [|split]].
  - now intros ->.
  - now intros ->.
  - now intros ->.
  - intros response Hp. split; [|split]; intros ->; cbn [bind]; now rewrite Hp.
Qed.

End ReportEdges.

(** * More on construction, copies and responses *)

Section Refusals.

Import Detection.

Variable fromisoformat : string -> option datetime.
Variable get_text : string -> string.

Local Abbreviation __init__ := (Detection.__init__ fromisoformat get_text).
Local Abbreviation from_dict := (Detection.from_dict fromisoformat get_text).
Local Abbreviation copy := (Detection.copy fromisoformat get_text).

(** X20: [from_dict] checks its four keys before anything else: a mapping
    that lacks QID, SEVERITY, STATUS or TYPE gets the [ValueError] that
    lists the four, whatever else it holds or lacks; a mapping with an
    entry that names no field gets no record; and what is no mapping has
    no [keys]. *)
Theorem from_dict_refusals (d : dict) (k : string) :
  (In k required_keys -> dict_has k d = false ->
   from_dict (VDict d) = Err (ValueError (RequiredKeys required_keys)))
  /\ (declared k = false -> dict_has k d = true ->
      exists e, from_dict (VDict d) = Err e)
  /\ (forall l, from_dict (VList l) = Err (AttributeError "keys"))
  /\ from_dict VNone = Err (AttributeError "keys").
Proof.
  split; [|split; [|split]]; try reflexivity.
  - apply from_dict_missing_required_key.
  - intros Hdecl Hk. unfold Detection.from_dict.
    destruct (forallb _ required_keys); [|eauto].
    unfold Detection.__init__, bind_arguments.
    destruct (filter (fun k0 => negb (declared k0)) (dict_keys d)) as [|k' ks] eqn:F;
      [|simpl; eauto].
    unfold dict_has, mem in Hk. apply existsb_exists in Hk.
    destruct Hk as [x [Hin E]]. apply String.eqb_eq in E. subst x.
    assert (X : In k (filter (fun k0 => negb (declared k0)) (dict_keys d)))
      by (apply filter_In; split; [exact Hin | now rewrite Hdecl]).
    rewrite F in X. destruct X.
Qed.

(** X21: the copy of a copy is the copy: for a record the constructor
    built without score and factors, whose text bs4 leaves unchanged from
    its second extraction on, [copy] applied to the result of [copy]
    returns that result. *)
Theorem copy_of_copy (kwargs : dict) (self c : t) (s : string) :
  __init__ kwargs = Ok self ->
  truthy (QDS self) = false -> truthy (QDS_FACTORS self) = false ->
  RESULTS self = VStr s ->
  get_text (get_text s) = get_text s ->
  copy self = Ok c ->
  copy c = Ok c.
Proof.
  intros Hinit HQ HF HR Hidem Hc.
  assert (N : forall k x, __init__ k = Ok x -> normalized x = true).
  { intros k x H. unfold Detection.__init__ in H.
    destruct (bind_arguments k) as [s0|]; simpl in H; [|discriminate].
    exact (post_init_normalized fromisoformat get_text s0 x H). }
  assert (Once : forall x t0, normalized x = true ->
             truthy (QDS x) = false -> truthy (QDS_FACTORS x) = false ->
             RESULTS x = VStr t0 ->
             copy x = Ok (setattr (setattr x "FQDN" VNone) "RESULTS" (VStr (get_text t0)))).
  { intros x t0 Nx Qx Fx Rx.
    unfold Detection.copy, Detection.__init__. rewrite bind_copy_arguments. cbn [bind].
    apply post_init_of_normalized;
      [now rewrite normalized_setattr_FQDN | exact Qx | exact Fx | exact Rx]. }
  rewrite (Once self s (N _ _ Hinit) HQ HF HR) in Hc. injection Hc as <-.
  rewrite (Once _ (get_text s)); try reflexivity.
  - rewrite Hidem. destruct self. reflexivity.
  - apply (N (copy_arguments self)). unfold Detection.copy in Once.
    rewrite (Once self s (N _ _ Hinit) HQ HF HR). reflexivity.
  - exact HQ.
  - exact HF.
Qed.

End Refusals.

Section ResponseEdges.

Variable BasicAuth : Type.
Variable call_api : BasicAuth -> request -> result Response.
Variable xml_parser : string -> result value.
Variable VMDRReport : Type.
Variable VMDRReport_from_dict : value -> result VMDRReport.
Variable ReportTemplate : Type.
Variable ReportTemplate_from_dict : value -> result ReportTemplate.

Local Abbreviation manage_reports := (Reports.manage_reports BasicAuth call_api).
Local Abbreviation get_report_list :=
  (Reports.get_report_list BasicAuth call_api xml_parser VMDRReport VMDRReport_from_dict).
Local Abbreviation get_template_list :=
  (Reports.get_template_list BasicAuth call_api xml_parser
     ReportTemplate ReportTemplate_from_dict).

(** X22: a SIMPLE_RETURN key decides the outcome of [get_template_list]:
    the call raises [QualysAPIError] with the envelope's text, or the
    error of reading that text, and returns no list, whatever else the
    response holds. *)
Theorem get_template_list_reads_envelope
    (auth : BasicAuth) (response : Response) (data : dict) :
  call_api auth {| module := "vmdr"; endpoint := "get_template_list";
                   params := None; payload := None;
                   headers := Some Reports.sdk_headers |} = Ok response ->
  xml_parser (text response) = Ok (VDict data) ->
  dict_has "SIMPLE_RETURN" data = true ->
  (forall message,
      subscripts (VDict data) [ "SIMPLE_RETURN"; "RESPONSE"; "TEXT" ] = Ok message ->
      get_template_list auth = Err (QualysAPIError message))
  /\ (forall e,
        subscripts (VDict data) [ "SIMPLE_RETURN"; "RESPONSE"; "TEXT" ] = Err e ->
        get_template_list auth = Err e)
  /\ (forall templates, get_template_list auth <> Ok templates).
Proof.
  intros Hcall Hparse Hsoft.
  assert (Start : get_template_list auth
                  = (message <- subscripts (VDict data)
                                  [ "SIMPLE_RETURN"; "RESPONSE"; "TEXT" ] ;;
                     Err (QualysAPIError message))).
  { unfold Reports.get_template_list. rewrite Hcall. cbn [bind].
    rewrite Hparse. cbn [bind contains]. now rewrite Hsoft. }
  rewrite Start. split; [|split].
  - now intros message ->.
  - now intros e ->.
  - intros templates.
    destruct (subscripts (VDict data) [ "SIMPLE_RETURN"; "RESPONSE"; "TEXT" ]);
      discriminate.
Qed.

(** X23: when a key of the path REPORT_LIST_OUTPUT, RESPONSE,
    REPORT_LIST, REPORT is missing from the mapping that has to hold it,
    [get_report_list] raises the [KeyError] of that key: a response
    without reports is an error, not an empty list. *)
Theorem get_report_list_missing_key
    (auth : BasicAuth) (kwargs : dict) (response : Response) (data : value)
    (before after : list string) (key : string) (holder : dict) :
  dict_has "action" kwargs = false ->
  manage_reports auth "list" kwargs = Ok response ->
  xml_parser (text response) = Ok data ->
  before ++ key :: after = [ "REPORT_LIST_OUTPUT"; "RESPONSE"; "REPORT_LIST"; "REPORT" ] ->
  subscripts data before = Ok (VDict holder) ->
  dict_has key holder = false ->
  get_report_list auth kwargs = Err (KeyError key).
Proof.
  intros Hact Hcall Hparse Hpath Hbefore Hkey.
  unfold Reports.get_report_list.
  rewrite (spread_fresh "action" kwargs Hact). cbn [bind].
  rewrite Hcall. cbn [bind]. rewrite Hparse. cbn [bind].
  unfold Reports.report_list. rewrite <- Hpath, subscripts_app, Hbefore.
  cbn [bind subscripts subscript]. apply dict_has_false in Hkey. now rewrite Hkey.
Qed.

End ResponseEdges.

(** * The theorems above at concrete inputs *)

Lemma from_dict_refusals_witness :
  Detection.from_dict fromisoformat_naive strip_tags
    (VDict [ ("QID", VStr "12345"); ("HOST_ID", VStr "1") ])
  = Err (ValueError (RequiredKeys Detection.required_keys))
  /\ exists e, Detection.from_dict fromisoformat_naive strip_tags
                 (VDict (("HOST_ID", VStr "1") :: scenario_A_entries)) = Err e.
Proof.
  split.
  - exact (proj1 (from_dict_refusals fromisoformat_naive strip_tags
                    [ ("QID", VStr "12345"); ("HOST_ID", VStr "1") ] "TYPE")
             (or_intror (or_intror (or_intror (or_introl eq_refl)))) eq_refl).
  - exact (proj1 (proj2 (from_dict_refusals fromisoformat_naive strip_tags
                           (("HOST_ID", VStr "1") :: scenario_A_entries) "HOST_ID"))
             eq_refl eq_refl).
Defined.

Lemma constructed_integer_field_witness :
  exists n, parse_int "12345" = Some n
            /\ Detection.getattr sample_finding "QID" = Ok (VInt n).
Proof.
  exact (proj2 (proj2 (constructed_integer_field fromisoformat_naive strip_tags
                         sample_arguments sample_finding "QID" (VStr "12345")
                         (or_intror (or_introl eq_refl)) eq_refl eq_refl))
           "12345" eq_refl).
Defined.

Lemma constructed_boolean_field_witness :
  Detection.getattr sample_finding "SSL" = Ok (VBool true).
Proof.
  refine (proj2 (proj2 (constructed_boolean_field fromisoformat_naive strip_tags
                          sample_arguments sample_finding "SSL" (VStr "0")
                          (or_intror (or_intror (or_introl eq_refl))) eq_refl eq_refl))
            "0" eq_refl _).
  discriminate.
Defined.

Lemma constructed_timestamp_field_witness :
  exists d, fromisoformat_naive "2024-03-01T10:00:00" = Some d
            /\ Detection.getattr sample_finding "LAST_FOUND_DATETIME" = Ok (VDatetime d).
Proof.
  exact (proj1 (constructed_timestamp_field fromisoformat_naive strip_tags
                  sample_arguments sample_finding "LAST_FOUND_DATETIME"
                  (VStr "2024-03-01T10:00:00")
                  (or_intror (or_introl eq_refl)) eq_refl eq_refl)
           "2024-03-01T10:00:00" eq_refl).
Defined.

Lemma constructed_RESULTS_witness :
  exists s, VStr "<b>open</b> port" = VStr s
            /\ Detection.RESULTS sample_finding = VStr (strip_tags s).
Proof.
  exact (proj1 (constructed_RESULTS fromisoformat_naive strip_tags
                  sample_arguments sample_finding eq_refl)
           (VStr "<b>open</b> port") eq_refl).
Defined.


Lemma constructed_default_witness :
  Detection.getattr sample_finding "TIMES_FOUND" = Ok (VInt 0)
  /\ Detection.getattr sample_finding "FQDN" = Ok VNone.
Proof.
  assert (N1 : "TIMES_FOUND" <> "RESULTS") by discriminate.
  assert (N2 : "FQDN" <> "RESULTS") by discriminate.
  split.
  - apply (constructed_default fromisoformat_naive strip_tags
             sample_arguments sample_finding "TIMES_FOUND" (VInt 0));
      [simpl; tauto | exact N1 | reflexivity | reflexivity].
  - apply (constructed_default fromisoformat_naive strip_tags
             sample_arguments sample_finding "FQDN" VNone);
      [simpl; tauto | exact N2 | reflexivity | reflexivity].
Defined.

Lemma constructed_record_is_typed_witness :
  (exists s, Detection.RESULTS sample_finding = VStr s)
  /\ Forall (fun f => exists v, Detection.getattr sample_finding f = Ok v
                                /\ (v = VNone \/ is_int v = true))
       Detection.INT_FIELDS.
Proof.
  destruct (constructed_record_is_typed fromisoformat_naive strip_tags
              sample_arguments sample_finding eq_refl) as [_ [R [_ [I _]]]].
  split; [exact R | exact I].
Defined.

Lemma from_dict_of_to_dict_witness :
  Detection.from_dict fromisoformat_naive strip_tags
    (VDict (Detection.to_dict confirmed_finding)) = Ok confirmed_finding.
Proof.
  destruct (from_dict_of_to_dict fromisoformat_naive strip_tags
              confirmed_arguments confirmed_finding eq_refl eq_refl eq_refl)
    as [s [R [_ H]]].
  apply H. injection R as <-. reflexivity.
Defined.

Lemma typed_detections_are_ordered_witness :
  exists c : comparison,
    (forall op, Detection.rich_compare op confirmed_finding potential_finding
                = Some (holds op c))
    /\ (forall op, Detection.rich_compare op potential_finding confirmed_finding
                   = Some (holds op (CompOpp c)))
    /\ Detection.__eq__ confirmed_finding potential_finding
       = match c with Eq => true | _ => false end
    /\ (c = Eq <-> 12345 = 12345 /\ "Confirmed" = "Potential" /\ 3 = 3).
Proof.
  exact (typed_detections_are_ordered confirmed_finding potential_finding
           12345 12345 3 3 "Confirmed" "Potential"
           eq_refl eq_refl eq_refl eq_refl eq_refl eq_refl).
Defined.

Lemma ordering_raises_on_None_QID_witness :
  Detection.__eq__ unidentified_finding confirmed_finding = false
  /\ Detection.__eq__ confirmed_finding unidentified_finding = false
  /\ Detection.rich_compare OpLt unidentified_finding confirmed_finding = None
  /\ Detection.rich_compare OpLt confirmed_finding unidentified_finding = None.
Proof.
  exact (ordering_raises_on_None_QID unidentified_finding confirmed_finding
           12345 OpLt eq_refl eq_refl).
Defined.

Lemma constructed_QDS_FACTORS_witness :
  exists pairs : list (value * value),
    Forall2 (fun x p => subscript x "@name" = Ok (fst p)
                        /\ subscript x "#text" = Ok (snd p))
      [ factor_A; factor_B ] pairs
    /\ Detection.QDS_FACTORS two_factor_finding
       = VList (map (fun p => VQDSFactor (fst p) (snd p)) pairs).
Proof.
  exact (constructed_QDS_FACTORS fromisoformat_naive strip_tags
           two_factor_arguments two_factor_finding
           [ ("QDS_FACTOR", VList [ factor_A; factor_B ]) ] [ factor_A; factor_B ]
           eq_refl eq_refl eq_refl).
Defined.

Lemma int_of_constructed_witness :
  exists n, parse_int "12345" = Some n /\ Detection.__int__ sample_finding = VInt n.
Proof.
  exact (proj2 (int_of_constructed fromisoformat_naive strip_tags
                  sample_arguments sample_finding (VStr "12345") eq_refl eq_refl)
           "12345" eq_refl).
Defined.

Lemma get_template_list_reads_envelope_witness :
  Reports.get_template_list unit (canned_transport "<soft/>")
    (canned_parser [ ("<soft/>", scenario_B) ]) value as_parsed tt
  = Err (QualysAPIError (VStr "No reports matched your search criteria.")).
Proof.
  refine (proj1 (get_template_list_reads_envelope unit (canned_transport "<soft/>")
                   (canned_parser [ ("<soft/>", scenario_B) ]) value as_parsed
                   tt {| text := "<soft/>" |} _ eq_refl eq_refl eq_refl)
            (VStr "No reports matched your search criteria.") eq_refl).
Defined.

Lemma get_template_list_one_template_witness :
  Reports.get_template_list unit (canned_transport "<one/>")
    (canned_parser [ ("<one/>", VDict (template_list_output (VDict one_template))) ])
    value as_parsed tt
  = Ok [ VDict one_template ]
  /\ Reports.get_template_list unit (canned_transport "<none/>")
       (canned_parser [ ("<none/>", VDict [ ("DATETIME", VStr "2024-03-01T10:00:00Z") ]) ])
       value as_parsed tt
     = Err (KeyError "REPORT_TEMPLATE_LIST").
Proof.
  split.
  - exact (proj1 (get_template_list_one_template unit (canned_transport "<one/>")
             (canned_parser [ ("<one/>", VDict (template_list_output (VDict one_template))) ])
             value as_parsed tt {| text := "<one/>" |}
             (template_list_output (VDict one_template)) one_template
             eq_refl eq_refl eq_refl) (or_introl eq_refl)).
  - exact (proj2 (get_template_list_one_template unit (canned_transport "<none/>")
             (canned_parser [ ("<none/>", VDict [ ("DATETIME", VStr "2024-03-01T10:00:00Z") ]) ])
             value as_parsed tt {| text := "<none/>" |}
             [ ("DATETIME", VStr "2024-03-01T10:00:00Z") ] one_template
             eq_refl eq_refl eq_refl) eq_refl).
Defined.

Lemma get_report_list_all_or_nothing_witness :
  Reports.get_report_list unit (canned_transport "<two/>")
    (canned_parser
       [ ("<two/>", report_list_output (VList [ VDict one_report; VDict other_report ])) ])
    value as_parsed tt [ ("state", VStr "Finished") ]
  = Ok [ VDict one_report; VDict other_report ].
Proof.
  apply (proj1 (get_report_list_all_or_nothing unit (canned_transport "<two/>")
           (canned_parser
              [ ("<two/>", report_list_output (VList [ VDict one_report; VDict other_report ])) ])
           value as_parsed tt [ ("state", VStr "Finished") ] {| text := "<two/>" |}
           (report_list_output (VList [ VDict one_report; VDict other_report ]))
           [ VDict one_report; VDict other_report ]
           eq_refl eq_refl eq_refl eq_refl)).
  repeat constructor.
Defined.

Lemma caller_action_is_refused_witness :
  Reports.get_report_list unit (canned_transport "<ok/>")
    (canned_parser []) value as_parsed tt [ ("action", VStr "delete") ]
  = Err (TypeError (MultipleValues "action"))
  /\ Reports.launch_report unit (canned_transport "<ok/>") (canned_parser [])
       tt (VStr "1") [ ("action", VStr "delete") ]
     = Err (TypeError (MultipleValues "action")).
Proof.
  exact (caller_action_is_refused unit (canned_transport "<ok/>") (canned_parser [])
           value as_parsed tt (VStr "1") [ ("action", VStr "delete") ] eq_refl).
Defined.

Lemma launch_payload_keeps_options_witness :
  exists bag,
    dict_get "template_id" bag = Some (VStr "1")
    /\ dict_get "recipient_group" bag = Some (VStr "ops")
    /\ dict_get "recipient_group_id" bag = Some (VStr "17").
Proof.
  destruct (launch_payload_keeps_options unit (canned_transport "<launched/>")
              (canned_parser [ ("<launched/>", launched) ]) tt (VStr "1")
              [ ("recipient_group", VStr "ops"); ("recipient_group_id", VStr "17") ]
              eq_refl) as [bag [_ [T [_ [_ [K _]]]]]].
  exists bag. split; [exact T|]. split.
  - rewrite K by discriminate. reflexivity.
  - rewrite K by discriminate. reflexivity.
Defined.

Lemma launch_report_other_failures_witness :
  Reports.launch_report unit (canned_transport "<bad/>")
    (canned_parser [ ("<bad/>", launched_badly) ]) tt (VStr "1") []
  = Err (ValueError (InvalidIntLiteral "n/a")).
Proof.
  exact (proj1 (proj1 (launch_report_other_failures unit (canned_transport "<bad/>")
                  (canned_parser [ ("<bad/>", launched_badly) ]) tt (VStr "1") []
                  {| text := "<bad/>" |} launched_badly eq_refl eq_refl eq_refl)
                 (VStr "n/a") (ValueError (InvalidIntLiteral "n/a")) eq_refl eq_refl)).
Defined.

Lemma collaborator_errors_pass_through_witness :
  Reports.launch_report unit (failing_transport (KeyError "session"))
    (canned_parser []) tt (VStr "1") []
  = Err (KeyError "session").
Proof.
  exact (proj1 (proj2 (collaborator_errors_pass_through unit
                  (failing_transport (KeyError "session")) (canned_parser [])
                  value as_parsed value as_parsed tt (VStr "1") []
                  (KeyError "session") eq_refl)) eq_refl).
Defined.

Lemma copy_of_copy_witness :
  Detection.copy fromisoformat_naive strip_tags
    (Detection.setattr confirmed_finding "FQDN" VNone)
  = Ok (Detection.setattr confirmed_finding "FQDN" VNone).
Proof.
  exact (copy_of_copy fromisoformat_naive strip_tags confirmed_arguments
           confirmed_finding (Detection.setattr confirmed_finding "FQDN" VNone)
           "open port" eq_refl eq_refl eq_refl eq_refl eq_refl eq_refl).
Defined.

Lemma get_report_list_missing_key_witness :
  Reports.get_report_list unit (canned_transport "<empty/>")
    (canned_parser [ ("<empty/>", no_reports) ]) value as_parsed tt []
  = Err (KeyError "REPORT_LIST").
Proof.
  exact (get_report_list_missing_key unit (canned_transport "<empty/>")
           (canned_parser [ ("<empty/>", no_reports) ]) value as_parsed
           tt [] {| text := "<empty/>" |} no_reports
           [ "REPORT_LIST_OUTPUT"; "RESPONSE" ] [ "REPORT" ] "REPORT_LIST"
           [ ("DATETIME", VStr "2024-03-01T10:00:00Z") ]
           eq_refl eq_refl eq_refl eq_refl eq_refl eq_refl).
Defined.
